(** * The custom inference runtime [NumpyroModel] of docs/examples/custom

    A shallow embedding of the [models.py] written by the notebook
    [docs/examples/custom/README.ipynb]: the methods [load], [predict],
    [_extract_inputs] and [_model] of [class NumpyroModel(MLModel)].

    The instance is a record threaded through a state-and-exception monad, so
    that what a method mutates and where it can raise are both explicit.  The
    numerical libraries the runtime calls (NumPy, JAX, NumPyro) and the
    operating system are an interface, [Libraries]; nothing is assumed about
    them except their types. *)

From Stdlib Require Import ZArith QArith List String.
From stdpp Require Import base option list gmap strings.

Local Open Scope string_scope.
Local Open Scope list_scope.

(** ** Python values *)

(** What [json.load] produces, and what the [data] field of a tensor holds
    (pydantic's [TensorData] wraps any such value). *)
#[local] Unset Elimination Schemes.
Inductive PyVal (F : Type) : Type :=
| PyNone
| PyBool (b : bool)
| PyNum (x : F)
| PyStr (s : string)
| PyList (l : list (PyVal F))
| PyDict (items : list (string * PyVal F)).
#[local] Set Elimination Schemes.

Arguments PyNone {F}.
Arguments PyBool {F} b.
Arguments PyNum {F} x.
Arguments PyStr {F} s.
Arguments PyList {F} l.
Arguments PyDict {F} items.

(** Python's [len]: defined on sequences and mappings, a [TypeError] (here
    [None]) on numbers, booleans and [None]. *)
Definition py_len {F} (v : PyVal F) : option nat :=
  match v with
  | PyList l => Some (length l)
  | PyDict items => Some (length items)
  | PyStr s => Some (String.length s)
  | PyNone | PyBool _ | PyNum _ => None
  end.

(** The number of values a tensor's [data] carries, nested lists flattened;
    whatever is not a list is one value. *)
Fixpoint numel {F} (v : PyVal F) : nat :=
  match v with
  | PyList l => list_sum (map numel l)
  | PyNone | PyBool _ | PyNum _ | PyStr _ | PyDict _ => 1
  end.

(** Exceptions.  [External] wraps whatever a library or the operating system
    raises; the others are raised by the interpreter on the runtime's own
    code.  [InvalidInputError] belongs to the server's error taxonomy. *)
Inductive PyError (E : Type) : Type :=
| AttributeError (attr : string)
| TypeError (msg : string)
| KeyError (key : string)
| InvalidInputError (tensor : string)
| External (e : E).

Arguments AttributeError {E} attr.
Arguments TypeError {E} msg.
Arguments KeyError {E} key.
Arguments InvalidInputError {E} tensor.
Arguments External {E} e.

(** ** Arrays *)

(** A NumPy / JAX array: its shape and its elements in row-major order. *)
Record ndarray (F : Type) : Type := mk_ndarray {
  shape : list nat;
  flat : list F
}.

Arguments mk_ndarray {F} shape flat.
Arguments shape {F} n.
Arguments flat {F} n.

Definition product (dims : list nat) : nat := fold_right Nat.mul 1 dims.

(** A Python float used where an array is expected: a 0-dimensional array. *)
Definition scalar {F} (x : F) : ndarray F := mk_ndarray [] [x].

Fixpoint chunks {A} (n len : nat) (l : list A) : list (list A) :=
  match n with
  | 0 => []
  | S n' => take len l :: chunks n' len (drop len l)
  end.

(** [ndarray.tolist()]: nested lists, one level per dimension; a
    0-dimensional array gives the bare Python scalar, not a list.  (The
    [PyNone] branch is not reached by an array holding [product shape]
    elements.) *)
Fixpoint tolist_at {F} (dims : list nat) (elems : list F) : PyVal F :=
  match dims with
  | [] => match elems with
          | x :: _ => PyNum x
          | [] => PyNone
          end
  | n :: rest => PyList (map (tolist_at rest) (chunks n (product rest) elems))
  end.

Definition tolist {F} (a : ndarray F) : PyVal F := tolist_at (shape a) (flat a).

(** [np.asarray] of what is already an array. *)
Definition np_asarray {F} (a : ndarray F) : ndarray F := a.

(** ** The probabilistic program *)

Inductive Dist (F : Type) : Type :=
| Normal (loc scale : ndarray F)
| Exponential (rate : ndarray F).

Arguments Normal {F} loc scale.
Arguments Exponential {F} rate.

(** The body of a NumPyro model: a sequence of [numpyro.sample] statements,
    each naming a site, left to be interpreted by whatever handler runs the
    model.  [Fail] is an exception raised while the body runs. *)
Inductive Prog (F E A : Type) : Type :=
| Ret (a : A)
| Fail (e : PyError E)
| Sample (site : string) (d : Dist F) (obs : option (ndarray F))
         (k : ndarray F -> Prog F E A).

Arguments Ret {F E A} a.
Arguments Fail {F E A} e.
Arguments Sample {F E A} site d obs k.

Fixpoint pbind {F E A B} (p : Prog F E A) (f : A -> Prog F E B) : Prog F E B :=
  match p with
  | Ret a => f a
  | Fail e => Fail e
  | Sample site d obs k => Sample site d obs (fun v => pbind (k v) f)
  end.

(** ** Settings *)

Record ModelParameters : Type := {
  uri : option string;
  version : option string
}.

Record ModelSettings : Type := {
  name : string;
  implementation : string;
  parameters : option ModelParameters
}.

(** ** The libraries the runtime calls *)

Class Libraries : Type := {
  F : Type;                     (* floating-point scalars *)
  Key : Type;                   (* JAX PRNG keys *)
  ExtError : Type;              (* exceptions raised inside a library *)
  float : Q -> F;               (* a float literal *)
  (* numpy *)
  np_array : PyVal F -> ExtError + ndarray F;
  fmean : list F -> F;
  (* jax *)
  PRNGKey : Z -> Key;
  jnp_add : ndarray F -> ndarray F -> ExtError + ndarray F;
  jnp_mul : ndarray F -> ndarray F -> ExtError + ndarray F;
  (* numpyro.infer.Predictive: the checks of its constructor, and a call,
     which runs the model under the posterior samples with the given key and
     returns the sites it drew *)
  Predictive_init : gmap string (ndarray F) -> ExtError + unit;
  Predictive_run : Key -> gmap string (ndarray F) -> Prog F ExtError unit ->
                   PyError ExtError + gmap string (ndarray F);
  (* mlserver.utils.get_model_uri, and open followed by json.load *)
  get_model_uri : ModelSettings -> ExtError + string;
  read_json : string -> ExtError + PyVal F
}.

(** ** The wire types ([mlserver.types]) *)

Record RequestInput `{Libraries} : Type := {
  in_name : string;
  in_shape : list nat;
  in_datatype : string;
  in_parameters : option (list (string * PyVal F));
  in_data : PyVal F
}.

Record InferenceRequest `{Libraries} : Type := {
  req_id : option string;
  req_parameters : option (list (string * PyVal F));
  req_inputs : list RequestInput
}.

Record ResponseOutput `{Libraries} : Type := {
  out_name : string;
  out_shape : list nat;
  out_datatype : string;
  out_parameters : option (list (string * PyVal F));
  out_data : PyVal F
}.

Record InferenceResponse `{Libraries} : Type := {
  resp_model_name : string;
  resp_model_version : option string;
  resp_id : option string;
  resp_parameters : option (list (string * PyVal F));
  resp_outputs : list ResponseOutput
}.

(** ** The instance and the monad of its methods *)

(** The object bound to [self._predictive]: the model and the posterior
    samples [Predictive] was built from. *)
Record PredictiveObj `{Libraries} : Type := {
  pred_model : gmap string (ndarray F) -> Prog F ExtError unit;
  posterior_samples : gmap string (ndarray F)
}.

(** An instance of [NumpyroModel].  [_samples] and [_predictive] are
    attributes that exist only once [load] has assigned them. *)
Record NumpyroModel `{Libraries} : Type := {
  _settings : ModelSettings;
  ready : bool;
  _samples : option (gmap string (ndarray F));
  _predictive : option PredictiveObj
}.

Inductive Outcome `{Libraries} (A : Type) : Type :=
| Return (a : A)
| Raise (e : PyError ExtError).

Arguments Return {_ A} a.
Arguments Raise {_ A} e.

(** A method body: it reads and writes the instance, and returns or raises.
    What was written before an exception stays written. *)
Definition M `{Libraries} (A : Type) : Type :=
  NumpyroModel -> Outcome A * NumpyroModel.

Section Monad.
Context `{Libraries}.

Definition ret {A} (a : A) : M A := fun self => (Return a, self).

Definition raise {A} (e : PyError ExtError) : M A := fun self => (Raise e, self).

Definition bind {A B} (m : M A) (f : A -> M B) : M B :=
  fun self =>
    match m self with
    | (Return a, self') => f a self'
    | (Raise e, self') => (Raise e, self')
    end.

Definition gets {A} (f : NumpyroModel -> A) : M A := fun self => (Return (f self), self).

Definition modify (f : NumpyroModel -> NumpyroModel) : M unit :=
  fun self => (Return tt, f self).

(** The result of a library call: its exception propagates. *)
Definition call {A} (r : ExtError + A) : M A :=
  match r with
  | inr a => ret a
  | inl e => raise (External e)
  end.

(** Reading an attribute that may not have been assigned yet. *)
Definition getattr {A} (attr : string) (f : NumpyroModel -> option A) : M A :=
  fun self =>
    match f self with
    | Some a => (Return a, self)
    | None => (Raise (AttributeError attr), self)
    end.
End Monad.

Notation "x <- m ;; k" := (bind m (fun x => k))
  (at level 100, m at next level, right associativity).
Notation "m ;;; k" := (bind m (fun _ => k))
  (at level 100, right associativity).

Notation "x <~ p ;; k" := (pbind p (fun x => k))
  (at level 100, p at next level, right associativity).

(** ** class NumpyroModel(MLModel) *)

Section NumpyroModel.
Context `{Libraries}.

(** Modelled from the spec: the constructor of the [MLModel] base class,
    which is not part of the example.  A RuntimeInstance is bound to one
    ModelSettings and its [ready] is false until [load] succeeds; it has no
    model-specific state before that. *)
Definition MLModel_init (settings : ModelSettings) : NumpyroModel :=
  {| _settings := settings; ready := false; _samples := None; _predictive := None |}.

(** Modelled from the spec: the attribute [name] of [MLModel], the name of
    the settings the instance is bound to. *)
Definition self_name (self : NumpyroModel) : string := name (_settings self).

(** Modelled from the spec: the attribute [version] of [MLModel], the
    optional version of the settings the instance is bound to. *)
Definition self_version (self : NumpyroModel) : option string :=
  match parameters (_settings self) with
  | Some params => version params
  | None => None
  end.

(** Attribute assignments. *)
Definition set_ready (b : bool) (self : NumpyroModel) : NumpyroModel :=
  {| _settings := _settings self; ready := b;
     _samples := _samples self; _predictive := _predictive self |}.

Definition set__samples (s : gmap string (ndarray F)) (self : NumpyroModel) : NumpyroModel :=
  {| _settings := _settings self; ready := ready self;
     _samples := Some s; _predictive := _predictive self |}.

Definition set__predictive (p : PredictiveObj) (self : NumpyroModel) : NumpyroModel :=
  {| _settings := _settings self; ready := ready self;
     _samples := _samples self; _predictive := Some p |}.

(** *** _model *)

(** [numpyro.sample(site, d)], whose value the body goes on with. *)
Definition sample (site : string) (d : Dist F) : Prog F ExtError (ndarray F) :=
  Sample site d None Ret.

(** An arithmetic operation on arrays inside the body. *)
Definition arith (r : ExtError + ndarray F) : Prog F ExtError (ndarray F) :=
  match r with
  | inr v => Ret v
  | inl e => Fail (External e)
  end.

Definition _model (marriage age divorce : option (ndarray F)) : Prog F ExtError unit :=
  a <~ sample "a" (Normal (scalar (float 0.0)) (scalar (float 0.2))) ;;
  let M0 := scalar (float 0.0) in
  let A0 := scalar (float 0.0) in
  M <~ match marriage with
       | Some marriage =>
           bM <~ sample "bM" (Normal (scalar (float 0.0)) (scalar (float 0.5))) ;;
           arith (jnp_mul bM marriage)
       | None => Ret M0
       end ;;
  A <~ match age with
       | Some age =>
           bA <~ sample "bA" (Normal (scalar (float 0.0)) (scalar (float 0.5))) ;;
           arith (jnp_mul bA age)
       | None => Ret A0
       end ;;
  sigma <~ sample "sigma" (Exponential (scalar (float 1.0))) ;;
  aM <~ arith (jnp_add a M) ;;
  mu <~ arith (jnp_add aM A) ;;
  Sample "obs" (Normal mu sigma) divorce (fun _ => Ret tt).

Definition model_params : gset string := {[ "marriage"; "age"; "divorce" ]}.

(** [self._model] called with the entries of a dict as keyword arguments:
    Python binds the keywords to the parameters, the missing ones to their
    default [None]; a keyword that is no parameter is a [TypeError]. *)
Definition _model_call (kwargs : gmap string (ndarray F)) : Prog F ExtError unit :=
  if decide (dom kwargs ⊆ model_params)
  then _model (kwargs !! "marriage") (kwargs !! "age") (kwargs !! "divorce")
  else Fail (TypeError "_model() got an unexpected keyword argument").

(** *** _extract_inputs *)

Fixpoint for_inputs (l : list RequestInput) (inputs : gmap string (ndarray F))
  : M (gmap string (ndarray F)) :=
  match l with
  | [] => ret inputs
  | inp :: rest =>
      arr <- call (np_array (in_data inp)) ;;
      for_inputs rest (<[in_name inp := arr]> inputs)
  end.

Definition _extract_inputs (payload : InferenceRequest) : M (gmap string (ndarray F)) :=
  for_inputs (req_inputs payload) ∅.

(** *** predict *)

(** [self._predictive] called with [rng_key=key] and the entries of a dict
    as further keyword arguments.  [Predictive.__call__] has the parameters
    [self] and [rng_key] and passes every other keyword on to the model: a
    keyword that repeats one of the two is a [TypeError] at the call. *)
Definition Predictive_call (p : PredictiveObj) (rng_key : Key)
    (kwargs : gmap string (ndarray F)) : M (gmap string (ndarray F)) :=
  if decide ("rng_key" ∈ dom kwargs)
  then raise (TypeError "got multiple values for keyword argument 'rng_key'")
  else if decide ("self" ∈ dom kwargs)
  then raise (TypeError "got multiple values for argument 'self'")
  else match Predictive_run rng_key (posterior_samples p) (pred_model p kwargs) with
       | inr sites => ret sites
       | inl e => raise e
       end.

(** [d[key]] on a dict. *)
Definition getitem {A} (d : gmap string A) (key : string) : M A :=
  match d !! key with
  | Some v => ret v
  | None => raise (KeyError key)
  end.

(** [a.mean()]: the mean of all the elements, a 0-dimensional array. *)
Definition mean (a : ndarray F) : ndarray F := mk_ndarray [] [fmean (flat a)].

Definition predict (payload : InferenceRequest) : M InferenceResponse :=
  inputs <- _extract_inputs payload ;;
  p <- getattr "_predictive" _predictive ;;
  predictions <- Predictive_call p (PRNGKey 0) inputs ;;
  obs <- getitem predictions "obs" ;;
  let obs_mean := mean obs in
  model_name <- gets self_name ;;
  model_version <- gets self_version ;;
  ret {| resp_id := req_id payload;
         resp_model_name := model_name;
         resp_model_version := model_version;
         resp_parameters := None;
         resp_outputs :=
           [ {| out_name := "obs_mean";
                out_shape := shape obs_mean;
                out_datatype := "FP32";
                out_parameters := None;
                out_data := tolist (np_asarray obs_mean) |} ] |}.

(** *** load *)

(** [raw_samples.items()]: only a dict has the method. *)
Definition dict_items (v : PyVal F) : M (list (string * PyVal F)) :=
  match v with
  | PyDict items => ret items
  | _ => raise (AttributeError "items")
  end.

(** [self._samples[k] = arr] *)
Definition setitem__samples (k : string) (arr : ndarray F) : M unit :=
  s <- getattr "_samples" _samples ;;
  modify (set__samples (<[k := arr]> s)).

Fixpoint for_items (items : list (string * PyVal F)) : M unit :=
  match items with
  | [] => ret tt
  | (k, v) :: rest =>
      arr <- call (np_array v) ;;
      setitem__samples k arr ;;;
      for_items rest
  end.

(** [Predictive(model, posterior_samples)] *)
Definition Predictive (model : gmap string (ndarray F) -> Prog F ExtError unit)
    (samples : gmap string (ndarray F)) : M PredictiveObj :=
  call (Predictive_init samples) ;;;
  ret {| pred_model := model; posterior_samples := samples |}.

Definition load : M bool :=
  settings <- gets _settings ;;
  model_uri <- call (get_model_uri settings) ;;
  raw_samples <- call (read_json model_uri) ;;
  modify (set__samples ∅) ;;;
  items <- dict_items raw_samples ;;
  for_items items ;;;
  samples <- getattr "_samples" _samples ;;
  p <- Predictive _model_call samples ;;
  modify (set__predictive p) ;;;
  modify (set_ready true) ;;;
  gets ready.

(** *** Serving several requests *)

(** The calls a server makes for a batch of requests, one after the other on
    the same instance; an exception ends its own call only. *)
Fixpoint serve (payloads : list InferenceRequest) (self : NumpyroModel)
  : list (Outcome InferenceResponse) * NumpyroModel :=
  match payloads with
  | [] => ([], self)
  | payload :: rest =>
      let (o, self') := predict payload self in
      let (os, self'') := serve rest self' in
      (o :: os, self'')
  end.
End NumpyroModel.

(** ** A reference implementation of the libraries

    Exact rationals for floats, arrays of at most one dimension, and a
    sampler that returns the location of the distribution: enough to run the
    runtime on the notebook's files and request. *)

Module Reference.

Fixpoint nums (l : list (PyVal Q)) : option (list Q) :=
  match l with
  | [] => Some []
  | PyNum x :: rest => option_map (cons x) (nums rest)
  | _ :: _ => None
  end.

Definition ref_np_array (v : PyVal Q) : string + ndarray Q :=
  match v with
  | PyNum x => inr (scalar x)
  | PyList l =>
      match nums l with
      | Some xs => inr (mk_ndarray [length xs] xs)
      | None => inl "ValueError: unsupported data"
      end
  | _ => inl "ValueError: unsupported data"
  end.

Definition ref_fmean (l : list Q) : Q :=
  Qred (fold_right Qplus 0%Q l / inject_Z (Z.of_nat (length l))).

(** Element-wise operations, a 0-dimensional operand broadcast. *)
Definition elementwise (op : Q -> Q -> Q) (a b : ndarray Q) : string + ndarray Q :=
  match shape a, flat a, shape b, flat b with
  | [], [x], _, ys => inr (mk_ndarray (shape b) (map (fun y => Qred (op x y)) ys))
  | _, xs, [], [y] => inr (mk_ndarray (shape a) (map (fun x => Qred (op x y)) xs))
  | sa, xs, sb, ys =>
      if decide (sa = sb)
      then inr (mk_ndarray sa (zip_with (fun x y => Qred (op x y)) xs ys))
      else inl "ValueError: incompatible shapes for broadcasting"
  end.

Definition draws (samples : gmap string (ndarray Q)) : nat :=
  map_fold (fun _ a n => Nat.max n (length (flat a))) 0 samples.

Definition ref_Predictive_init (samples : gmap string (ndarray Q)) : string + unit :=
  if decide (draws samples = 0)
  then inl "ValueError: no sample sites to infer num_samples"
  else inr tt.

Definition ref_draw (d : Dist Q) : ndarray Q :=
  match d with
  | Normal loc _ => loc
  | Exponential rate => rate
  end.

(** One run of the model for the posterior draw [i]: a site is observed,
    taken from the posterior samples, or drawn, in that order; the sites
    that are not in the samples are recorded. *)
Fixpoint run_draw (samples : gmap string (ndarray Q)) (i : nat)
    (p : Prog Q string unit) (trace : gmap string (ndarray Q))
  : PyError string + gmap string (ndarray Q) :=
  match p with
  | Ret _ => inr trace
  | Fail e => inl e
  | Sample site d obs k =>
      match obs, samples !! site with
      | Some v, Some _ => run_draw samples i (k v) trace
      | Some v, None => run_draw samples i (k v) (<[site := v]> trace)
      | None, Some arr =>
          run_draw samples i (k (scalar (nth i (flat arr) 0%Q))) trace
      | None, None =>
          let v := ref_draw d in
          run_draw samples i (k v) (<[site := v]> trace)
      end
  end.

(** The recorded values of the draws, stacked along a new first axis. *)
Definition stack (n : nat) (acc : option (ndarray Q)) (v : ndarray Q) : ndarray Q :=
  mk_ndarray (n :: shape v) (from_option flat [] acc ++ flat v).

Fixpoint run_draws (samples : gmap string (ndarray Q)) (p : Prog Q string unit)
    (n i : nat) (acc : gmap string (ndarray Q))
  : PyError string + gmap string (ndarray Q) :=
  match i with
  | 0 => inr acc
  | S i' =>
      match run_draws samples p n i' acc with
      | inl e => inl e
      | inr acc' =>
          match run_draw samples i' p ∅ with
          | inl e => inl e
          | inr trace =>
              inr (map_imap (fun site v => Some (stack n (acc' !! site) v)) trace)
          end
      end
  end.

Definition ref_Predictive_run (key : Z) (samples : gmap string (ndarray Q))
    (p : Prog Q string unit) : PyError string + gmap string (ndarray Q) :=
  run_draws samples p (draws samples) (draws samples) ∅.

Definition ref_get_model_uri (settings : ModelSettings) : string + string :=
  match parameters settings with
  | Some {| uri := Some u |} => inr u
  | _ => inl "InvalidModelURI"
  end.

(** The file the notebook saves, with two posterior draws. *)
Definition numpyro_divorce_json : PyVal Q :=
  PyDict [ ("a", PyList [PyNum 0.0%Q; PyNum 0.1%Q]);
           ("bM", PyList [PyNum 0.3%Q; PyNum 0.4%Q]);
           ("sigma", PyList [PyNum 0.8%Q; PyNum 0.9%Q]) ].

(** A file that holds a JSON array where the object is expected. *)
Definition samples_array_json : PyVal Q :=
  PyList [PyList [PyNum 0.0%Q; PyNum 0.1%Q]].

Definition ref_read_json (path : string) : string + PyVal Q :=
  if decide (path = "./numpyro-divorce.json")
  then inr numpyro_divorce_json
  else if decide (path = "./samples-array.json")
  then inr samples_array_json
  else inl "FileNotFoundError".

#[export] Instance libs : Libraries := {|
  F := Q;
  Key := Z;
  ExtError := string;
  float := fun q => q;
  np_array := ref_np_array;
  fmean := ref_fmean;
  PRNGKey := fun seed => seed;
  jnp_add := elementwise Qplus;
  jnp_mul := elementwise Qmult;
  Predictive_init := ref_Predictive_init;
  Predictive_run := ref_Predictive_run;
  get_model_uri := ref_get_model_uri;
  read_json := ref_read_json
|}.

(** model-settings.json *)
Definition model_settings : ModelSettings :=
  {| name := "numpyro-divorce";
     implementation := "models.NumpyroModel";
     parameters := Some {| uri := Some "./numpyro-divorce.json"; version := None |} |}.

(** The instance after the server has loaded it. *)
Definition loaded : NumpyroModel := snd (load (MLModel_init model_settings)).

(** The notebook's test request, with and without an id, and a request with
    no input at all. *)
Definition marriage_input : RequestInput :=
  {| in_name := "marriage"; in_shape := [1]; in_datatype := "FP32";
     in_parameters := None; in_data := PyList [PyNum 28.0%Q] |}.

Definition inference_request : InferenceRequest :=
  {| req_id := None; req_parameters := None; req_inputs := [marriage_input] |}.

Definition request_with_id (id : string) : InferenceRequest :=
  {| req_id := Some id; req_parameters := None; req_inputs := [marriage_input] |}.

Definition empty_request : InferenceRequest :=
  {| req_id := Some "r0"; req_parameters := None; req_inputs := [] |}.

Definition batch : list InferenceRequest :=
  [request_with_id "r1"; request_with_id "r2"; request_with_id "r3"].

(** The same tensor as [marriage_input], declared otherwise. *)
Definition marriage_input' : RequestInput :=
  {| in_name := "marriage"; in_shape := [1; 1]; in_datatype := "FP64";
     in_parameters := Some [("content_type", PyStr "np")];
     in_data := PyList [PyNum 28.0%Q] |}.

Definition inference_request' : InferenceRequest :=
  {| req_id := None; req_parameters := Some [("verbose", PyBool true)];
     req_inputs := [marriage_input'] |}.

(** Settings that point at a file that is not there. *)
Definition missing_file_settings : ModelSettings :=
  {| name := "numpyro-divorce";
     implementation := "models.NumpyroModel";
     parameters := Some {| uri := Some "./nowhere.json"; version := None |} |}.

(** Settings that point at [samples_array_json]. *)
Definition array_file_settings : ModelSettings :=
  {| name := "numpyro-divorce";
     implementation := "models.NumpyroModel";
     parameters := Some {| uri := Some "./samples-array.json"; version := None |} |}.

(** The response of the loaded instance whose mean is [x]. *)
Definition obs_mean_output (x : Q) : ResponseOutput :=
  {| out_name := "obs_mean"; out_shape := []; out_datatype := "FP32";
     out_parameters := None; out_data := PyNum x |}.

Definition obs_mean_response (id : option string) (x : Q) : InferenceResponse :=
  {| resp_id := id;
     resp_model_name := "numpyro-divorce";
     resp_model_version := None;
     resp_parameters := None;
     resp_outputs := [obs_mean_output x] |}.

End Reference.

(** ** Vocabulary of the properties *)

Section Vocabulary.
Context `{Libraries}.

(** A method body that leaves the instance as it found it, whether it
    returns or raises. *)
Definition read_only {A} (m : M A) : Prop :=
  ∀ self, snd (m self) = self.

(** A method body that does not assign [self.ready]. *)
Definition keeps_ready {A} (m : M A) : Prop :=
  ∀ self, ready (snd (m self)) = ready self.

Definition outcome_map {A B} (f : A → B) (o : Outcome A) : Outcome B :=
  match o with
  | Return a => Return (f a)
  | Raise e => Raise e
  end.

(** The tensor invariant of the payload model: [data] is a sequence as long
    as the product of [shape], and empty when a dimension is zero. *)
Definition tensor_invariant (o : ResponseOutput) : Prop :=
  py_len (out_data o) = Some (product (out_shape o)) ∧
  (0 ∈ out_shape o → py_len (out_data o) = Some 0).

(** What [_extract_inputs] reads of an input. *)
Definition name_and_data (inp : RequestInput) : string * PyVal F :=
  (in_name inp, in_data inp).

(** The response [predict] builds around the sampled observations. *)
Definition response_of (payload : InferenceRequest) (self : NumpyroModel)
    (obs : ndarray F) : InferenceResponse :=
  {| resp_id := req_id payload;
     resp_model_name := self_name self;
     resp_model_version := self_version self;
     resp_parameters := None;
     resp_outputs :=
       [ {| out_name := "obs_mean";
            out_shape := [];
            out_datatype := "FP32";
            out_parameters := None;
            out_data := PyNum (fmean (flat obs)) |} ] |}.

(** How [predict] ends once [Predictive] has run the model. *)
Definition finish (payload : InferenceRequest) (self : NumpyroModel)
    (r : PyError ExtError + gmap string (ndarray F)) : Outcome InferenceResponse :=
  match r with
  | inl e => Raise e
  | inr sites =>
      match sites !! "obs" with
      | Some obs => Return (response_of payload self obs)
      | None => Raise (KeyError "obs")
      end
  end.

(** What a call of [load] may do to an instance whose flag was [r0]: return
    [True] with the flag set, or raise with the flag as it was. *)
Definition load_post (r0 : bool) (res : Outcome bool * NumpyroModel) : Prop :=
  match res with
  | (Return b, self') => b = true ∧ ready self' = true
  | (Raise _, self') => ready self' = r0
  end.
End Vocabulary.

(** ** The training and saving cells of the notebook *)

(** The loop of the saving cell, [serialisable[k] = np.asarray(v).tolist()]
    for every entry of the samples. *)
Definition serialisable {F} (samples : gmap string (ndarray F)) : gmap string (PyVal F) :=
  foldl (fun acc kv => <[kv.1 := tolist (np_asarray kv.2)]> acc) ∅ (map_to_list samples).

(** What [json.load] reads back from the file [json.dump] wrote for a dict:
    the object with the entries of the dict. *)
Definition json_object {F} (d : gmap string (PyVal F)) : PyVal F :=
  PyDict (map_to_list d).

Section Cells.
Context `{Libraries}.

(** The function [model] of the training cell. *)
Definition model (marriage age divorce : option (ndarray F)) : Prog F ExtError unit :=
  a <~ sample "a" (Normal (scalar (float 0.0)) (scalar (float 0.2))) ;;
  let M0 := scalar (float 0.0) in
  let A0 := scalar (float 0.0) in
  M <~ match marriage with
       | Some marriage =>
           bM <~ sample "bM" (Normal (scalar (float 0.0)) (scalar (float 0.5))) ;;
           arith (jnp_mul bM marriage)
       | None => Ret M0
       end ;;
  A <~ match age with
       | Some age =>
           bA <~ sample "bA" (Normal (scalar (float 0.0)) (scalar (float 0.5))) ;;
           arith (jnp_mul bA age)
       | None => Ret A0
       end ;;
  sigma <~ sample "sigma" (Exponential (scalar (float 1.0))) ;;
  aM <~ arith (jnp_add a M) ;;
  mu <~ arith (jnp_add aM A) ;;
  Sample "obs" (Normal mu sigma) divorce (fun _ => Ret tt).
End Cells.

(** ** Vocabulary of the further properties *)

Section Loops.
Context `{Libraries}.

(** The last element of a list that goes under a key. *)
Definition last_with {A} (key_of : A → string) (key : string) (l : list A) : option A :=
  last (filter (λ x, key_of x = key) l).

(** A loop [for x in l: d[key_of x] = conv x] on the dict [acc]: the dict it
    leaves, and the exception of the conversion that stopped it, if one did. *)
Fixpoint fill {A} (key_of : A → string) (conv : A → ExtError + ndarray F)
    (l : list A) (acc : gmap string (ndarray F))
  : option ExtError * gmap string (ndarray F) :=
  match l with
  | [] => (None, acc)
  | x :: rest =>
      match conv x with
      | inl e => (Some e, acc)
      | inr a => fill key_of conv rest (<[key_of x := a]> acc)
      end
  end.

(** [np.array] accepts the value. *)
Definition converts (v : PyVal F) : Prop := ∃ a, np_array v = inr a.

(** The instance a successful [load] leaves for these settings and samples. *)
Definition loaded_instance (settings : ModelSettings)
    (samples : gmap string (ndarray F)) : NumpyroModel :=
  {| _settings := settings; ready := true; _samples := Some samples;
     _predictive := Some {| pred_model := _model_call; posterior_samples := samples |} |}.

(** A run of a model body under a handler that draws the value of every site
    that is not observed: the sites in the order they are reached, each with
    its observation, and how the body ends. *)
Fixpoint trace_of {A} (h : string → Dist F → ndarray F) (p : Prog F ExtError A)
  : list (string * option (ndarray F)) * (PyError ExtError + A) :=
  match p with
  | Ret a => ([], inr a)
  | Fail e => ([], inl e)
  | Sample site d obs k =>
      let v := match obs with Some v => v | None => h site d end in
      let (tr, r) := trace_of h (k v) in
      ((site, obs) :: tr, r)
  end.

(** The sites of a run that were drawn, not observed. *)
Definition latent (tr : list (string * option (ndarray F))) : list string :=
  (filter (λ s, s.2 = None) tr).*1.

(** The sites of the model, in order, for a call with or without [marriage]
    and [age]. *)
Definition sites_for (marriage age : option (ndarray F)) : list string :=
  ["a"] ++ match marriage with Some _ => ["bM"] | None => [] end ++
  match age with Some _ => ["bA"] | None => [] end ++ ["sigma"; "obs"].
End Loops.

(** ** Further scenarios on the reference libraries *)

Module Scenarios.
Import Reference.

(** A loaded instance whose settings now point at [samples_array_json]. *)
Definition stale_instance : NumpyroModel :=
  {| _settings := array_file_settings; ready := true;
     _samples := _samples loaded; _predictive := _predictive loaded |}.

(** The loaded instance with its flag cleared. *)
Definition unready_instance : NumpyroModel :=
  {| _settings := _settings loaded; ready := false;
     _samples := _samples loaded; _predictive := _predictive loaded |}.

(** Posterior samples with two draws, as training leaves them. *)
Definition trained_samples : gmap string (ndarray Q) :=
  <["a" := mk_ndarray [2] [0.0%Q; 0.1%Q]]>
    (<["bM" := mk_ndarray [2] [0.3%Q; 0.4%Q]]>
       (<["sigma" := mk_ndarray [2] [0.8%Q; 0.9%Q]]> ∅)).

(** The reference libraries once the saving cell has written
    [trained_samples] to numpyro-divorce.json. *)
Definition saved_read_json (path : string) : string + PyVal Q :=
  if decide (path = "./numpyro-divorce.json")
  then inr (json_object (serialisable trained_samples))
  else inl "FileNotFoundError".

Definition saved_libs : Libraries := {|
  F := Q;
  Key := Z;
  ExtError := string;
  float := fun q => q;
  np_array := ref_np_array;
  fmean := ref_fmean;
  PRNGKey := fun seed => seed;
  jnp_add := elementwise Qplus;
  jnp_mul := elementwise Qmult;
  Predictive_init := ref_Predictive_init;
  Predictive_run := ref_Predictive_run;
  get_model_uri := ref_get_model_uri;
  read_json := saved_read_json
|}.

(** Two inputs under one name, and an input whose data is no array of
    numbers. *)
Definition marriage_input_30 : RequestInput :=
  {| in_name := "marriage"; in_shape := [1]; in_datatype := "FP32";
     in_parameters := None; in_data := PyList [PyNum 30.0%Q] |}.

Definition text_input : RequestInput :=
  {| in_name := "age"; in_shape := [1]; in_datatype := "BYTES";
     in_parameters := None; in_data := PyList [PyStr "old"] |}.

Definition repeated_request : InferenceRequest :=
  {| req_id := None; req_parameters := None;
     req_inputs := [marriage_input; marriage_input_30] |}.

Definition text_request : InferenceRequest :=
  {| req_id := None; req_parameters := None;
     req_inputs := [marriage_input; text_input; marriage_input_30] |}.

(** The handler that draws the location of the distribution. *)
Definition draw_location : string → Dist F → ndarray F :=
  fun site d => ref_draw d.

(** A request one of whose inputs takes the name of a parameter of the call
    of [Predictive]. *)
Definition rng_key_input : RequestInput :=
  {| in_name := "rng_key"; in_shape := [1]; in_datatype := "FP32";
     in_parameters := None; in_data := PyList [PyNum 7.0%Q] |}.

Definition rng_key_request : InferenceRequest :=
  {| req_id := None; req_parameters := None;
     req_inputs := [marriage_input; rng_key_input] |}.

(** A request with an input under a name that [_model] does not have. *)
Definition waffles_input : RequestInput :=
  {| in_name := "waffles"; in_shape := [1]; in_datatype := "FP32";
     in_parameters := None; in_data := PyList [PyNum 3.0%Q] |}.

Definition waffles_request : InferenceRequest :=
  {| req_id := None; req_parameters := None;
     req_inputs := [marriage_input; waffles_input] |}.

(** A request whose only input is under such a name. *)
Definition waffles_only_request : InferenceRequest :=
  {| req_id := None; req_parameters := None; req_inputs := [waffles_input] |}.

(** What [load] binds to [_predictive] on the notebook's file. *)
Definition loaded_predictive : PredictiveObj :=
  {| pred_model := _model_call; posterior_samples := trained_samples |}.

End Scenarios.

(** ** The request handler in front of the runtime *)

(** Modelled from the spec: what the Inference Request Handler (section
    4.4), which is not part of the example, gives back for a request that
    passed validation and names an instance the Repository holds: the
    response of [predict], the unavailable classification when the instance
    is not ready, or the server-error classification for a failure inside
    [predict]. *)
Inductive Handled `{Libraries} : Type :=
| Response (r : InferenceResponse)
| Unavailable
| ServerError (e : PyError ExtError).

(** Modelled from the spec: the id of an InferenceRequest is an optional
    correlation string, generated if absent (section 3).  The request as
    the handler hands it to the runtime, [generated] being the id generated
    for a request that has none. *)
Definition with_generated_id `{Libraries} (generated : string)
    (request : InferenceRequest) : InferenceRequest :=
  {| req_id := Some (from_option (fun id => id) generated (req_id request));
     req_parameters := req_parameters request;
     req_inputs := req_inputs request |}.

(** Modelled from the spec: the Inference Request Handler (section 4.4),
    which is not part of the example, once the request is parsed and the
    instance resolved: only a ready instance serves; the handler invokes
    [predict] on the request and returns its response, and classifies a
    failure inside [predict] as a server error. *)
Definition handle `{Libraries} (generated : string) (request : InferenceRequest)
    (self : NumpyroModel) : Handled :=
  if ready self
  then match fst (predict (with_generated_id generated request) self) with
       | Return r => Response r
       | Raise e => ServerError e
       end
  else Unavailable.

(** Membership in a list that is written out. *)
Ltac in_list := rewrite list_elem_of_In; cbn; intuition congruence.

(** * Properties *)

Section Frame.
Context `{Libraries}.

Lemma read_only_ret {A} (a : A) : read_only (ret a).
Proof. intros self. reflexivity. Qed.

Lemma read_only_raise {A} e : read_only (raise (A := A) e).
Proof. intros self. reflexivity. Qed.

Lemma read_only_gets {A} (f : NumpyroModel → A) : read_only (gets f).
Proof. intros self. reflexivity. Qed.

Lemma read_only_call {A} (r : ExtError + A) : read_only (call r).
Proof. destruct r; intros self; reflexivity. Qed.

Lemma read_only_getattr {A} attr (f : NumpyroModel → option A) :
  read_only (getattr attr f).
Proof. intros self. unfold getattr. destruct (f self); reflexivity. Qed.

Lemma read_only_bind {A B} (m : M A) (f : A → M B) :
  read_only m → (∀ a, read_only (f a)) → read_only (bind m f).
Proof.
  intros Hm Hf self. unfold bind.
  specialize (Hm self). destruct (m self) as [[a|e] self1]; simpl in Hm; subst self1.
  - apply Hf.
  - reflexivity.
Qed.

Lemma read_only_for_inputs l inputs : read_only (for_inputs l inputs).
Proof.
  revert inputs. induction l as [|inp rest IH]; intros inputs; simpl.
  - apply read_only_ret.
  - apply read_only_bind; [apply read_only_call | intros arr; apply IH].
Qed.

Lemma read_only__extract_inputs payload : read_only (_extract_inputs payload).
Proof. apply read_only_for_inputs. Qed.

Lemma read_only_Predictive_call p key kwargs :
  read_only (Predictive_call p key kwargs).
Proof.
  unfold Predictive_call. repeat case_decide; try apply read_only_raise.
  destruct (Predictive_run _ _ _); [apply read_only_raise | apply read_only_ret].
Qed.

Lemma read_only_getitem {A} (d : gmap string A) key : read_only (getitem d key).
Proof.
  unfold getitem. destruct (d !! key); [apply read_only_ret | apply read_only_raise].
Qed.

Lemma read_only_predict payload : read_only (predict payload).
Proof.
  unfold predict.
  repeat (first
    [ apply read_only_bind; [| intros ?]
    | apply read_only__extract_inputs
    | apply read_only_getattr
    | apply read_only_Predictive_call
    | apply read_only_getitem
    | apply read_only_gets
    | apply read_only_ret ]).
Qed.

(** [bind] when the first computation is read-only. *)
Lemma bind_read_only {A B} (m : M A) (f : A → M B) self :
  read_only m →
  bind m f self = match fst (m self) with
                  | Return a => f a self
                  | Raise e => (Raise e, self)
                  end.
Proof.
  intros Hm. unfold bind. specialize (Hm self).
  destruct (m self) as [[a|e] self1]; simpl in *; subst; reflexivity.
Qed.

(** [predict] in direct style. *)
Lemma predict_eq payload self :
  predict payload self =
    match fst (_extract_inputs payload self) with
    | Raise e => (Raise e, self)
    | Return inputs =>
        match _predictive self with
        | None => (Raise (AttributeError "_predictive"), self)
        | Some p =>
            match fst (Predictive_call p (PRNGKey 0) inputs self) with
            | Raise e => (Raise e, self)
            | Return predictions =>
                match predictions !! "obs" with
                | Some obs => (Return (response_of payload self obs), self)
                | None => (Raise (KeyError "obs"), self)
                end
            end
        end
    end.
Proof.
  unfold predict.
  rewrite bind_read_only by apply read_only__extract_inputs.
  destruct (fst (_extract_inputs payload self)) as [inputs|e]; [|reflexivity].
  unfold bind at 1, getattr. destruct (_predictive self) as [p|]; [|reflexivity].
  rewrite bind_read_only by apply read_only_Predictive_call.
  destruct (fst (Predictive_call p (PRNGKey 0) inputs self)) as [predictions|e];
    [|reflexivity].
  unfold bind at 1, getitem. destruct (predictions !! "obs") as [obs|]; reflexivity.
Qed.

Lemma Predictive_call_eq p key kwargs self :
  "rng_key" ∉ dom kwargs → "self" ∉ dom kwargs →
  fst (Predictive_call p key kwargs self) =
    match Predictive_run key (posterior_samples p) (pred_model p kwargs) with
    | inl e => Raise e
    | inr sites => Return sites
    end.
Proof.
  intros H1 H2. unfold Predictive_call.
  rewrite decide_False by assumption. rewrite decide_False by assumption.
  destruct (Predictive_run _ _ _); reflexivity.
Qed.

(** A response that [predict] returns is built around some array of
    observations. *)
Lemma predict_Return payload self r :
  fst (predict payload self) = Return r →
  ∃ obs, r = response_of payload self obs.
Proof.
  rewrite predict_eq. intros Heq.
  destruct (fst (_extract_inputs payload self)); [|discriminate].
  destruct (_predictive self); [|discriminate].
  destruct (fst (Predictive_call _ _ _ _)); [|discriminate].
  destruct (_ !! "obs") as [obs|]; [|discriminate].
  injection Heq as <-. eauto.
Qed.
End Frame.

Section Load.
Context `{Libraries}.

Lemma keeps_ready_read_only {A} (m : M A) : read_only m → keeps_ready m.
Proof. intros Hm self. by rewrite Hm. Qed.

Lemma keeps_ready_bind {A B} (m : M A) (f : A → M B) :
  keeps_ready m → (∀ a, keeps_ready (f a)) → keeps_ready (bind m f).
Proof.
  intros Hm Hf self. unfold bind.
  specialize (Hm self). destruct (m self) as [[a|e] self1]; simpl in *.
  - by rewrite Hf.
  - done.
Qed.

Lemma keeps_ready_set__samples s : keeps_ready (modify (set__samples s)).
Proof. intros self. reflexivity. Qed.

Lemma keeps_ready_set__predictive p : keeps_ready (modify (set__predictive p)).
Proof. intros self. reflexivity. Qed.

Lemma read_only_dict_items v : read_only (dict_items v).
Proof. destruct v; first [apply read_only_ret | apply read_only_raise]. Qed.

Lemma read_only_Predictive model samples : read_only (Predictive model samples).
Proof.
  unfold Predictive. apply read_only_bind; [apply read_only_call|].
  intros _. apply read_only_ret.
Qed.

Lemma keeps_ready_setitem__samples k arr : keeps_ready (setitem__samples k arr).
Proof.
  unfold setitem__samples. apply keeps_ready_bind.
  - apply keeps_ready_read_only, read_only_getattr.
  - intros s. apply keeps_ready_set__samples.
Qed.

Lemma keeps_ready_for_items items : keeps_ready (for_items items).
Proof.
  induction items as [|[k v] rest IH]; simpl.
  - apply keeps_ready_read_only, read_only_ret.
  - apply keeps_ready_bind; [apply keeps_ready_read_only, read_only_call|].
    intros arr. apply keeps_ready_bind; [apply keeps_ready_setitem__samples|].
    intros _. apply IH.
Qed.

Lemma load_post_bind {A} (m : M A) (f : A → M bool) r0 self :
  keeps_ready m → ready self = r0 →
  (∀ a self1, ready self1 = r0 → load_post r0 (f a self1)) →
  load_post r0 (bind m f self).
Proof.
  intros Hm Hr Hf. unfold bind. specialize (Hm self).
  destruct (m self) as [[a|e] self1]; simpl in *.
  - apply Hf. congruence.
  - congruence.
Qed.

Lemma load_post_load self : load_post (ready self) (load self).
Proof.
  unfold load.
  apply load_post_bind; [apply keeps_ready_read_only, read_only_gets | done |].
  intros settings s1 H1.
  apply load_post_bind; [apply keeps_ready_read_only, read_only_call | done |].
  intros model_uri s2 H2.
  apply load_post_bind; [apply keeps_ready_read_only, read_only_call | done |].
  intros raw_samples s3 H3.
  apply load_post_bind; [apply keeps_ready_set__samples | done |].
  intros _ s4 H4.
  apply load_post_bind; [apply keeps_ready_read_only, read_only_dict_items | done |].
  intros items s5 H5.
  apply load_post_bind; [apply keeps_ready_for_items | done |].
  intros _ s6 H6.
  apply load_post_bind; [apply keeps_ready_read_only, read_only_getattr | done |].
  intros samples s7 H7.
  apply load_post_bind; [apply keeps_ready_read_only, read_only_Predictive | done |].
  intros p s8 H8.
  simpl. done.
Qed.

(** Inverting a [bind] that returned. *)
Lemma bind_Return {A B} (m : M A) (f : A → M B) self b self' :
  bind m f self = (Return b, self') →
  ∃ a self1, m self = (Return a, self1) ∧ f a self1 = (Return b, self').
Proof.
  unfold bind. destruct (m self) as [[a|e] self1]; [eauto | discriminate].
Qed.

Lemma read_only_Return {A} (m : M A) self a self' :
  read_only m → m self = (Return a, self') → self' = self.
Proof. intros Hm Heq. specialize (Hm self). by rewrite Heq in Hm. Qed.

(** The loop of [load] writes [_samples] only, and leaves it assigned. *)
Lemma for_items_frame items self o self' :
  for_items items self = (o, self') →
  _settings self' = _settings self ∧ ready self' = ready self ∧
  _predictive self' = _predictive self ∧
  (is_Some (_samples self) → is_Some (_samples self')).
Proof.
  revert self. induction items as [|[k v] rest IH]; intros self; simpl.
  - intros [= <- <-]. done.
  - unfold bind at 1. destruct (np_array v) as [e|arr]; simpl.
    + intros [= <- <-]. done.
    + unfold bind at 1, setitem__samples, bind at 1, getattr.
      destruct (_samples self) as [s|] eqn:Hs; simpl.
      * intros Heq. apply IH in Heq as (-> & -> & -> & Hsome). simpl.
        repeat split; try done; intros _; apply Hsome; simpl; eauto.
      * intros [= <- <-]. repeat split; try done; rewrite Hs; by intros [? [=]].
Qed.

(** What a successful [load] leaves behind. *)
Lemma load_Return self0 b self :
  fst (load self0) = Return b → snd (load self0) = self →
  b = true ∧ ready self = true ∧ _settings self = _settings self0 ∧
  ∃ samples, _samples self = Some samples ∧
    _predictive self =
      Some {| pred_model := _model_call; posterior_samples := samples |}.
Proof.
  intros Hfst Hsnd.
  assert (Heq : load self0 = (Return b, self)).
  { destruct (load self0); simpl in *; congruence. }
  clear Hfst Hsnd. unfold load in Heq.
  apply bind_Return in Heq as (settings & s1 & H1 & Heq).
  apply read_only_Return in H1 as ->; [|apply read_only_gets].
  apply bind_Return in Heq as (model_uri & s2 & H2 & Heq).
  apply read_only_Return in H2 as ->; [|apply read_only_call].
  apply bind_Return in Heq as (raw_samples & s3 & H3 & Heq).
  apply read_only_Return in H3 as ->; [|apply read_only_call].
  apply bind_Return in Heq as ([] & s4 & H4 & Heq).
  injection H4 as <-.
  apply bind_Return in Heq as (items & s5 & H5 & Heq).
  apply read_only_Return in H5 as ->; [|apply read_only_dict_items].
  apply bind_Return in Heq as ([] & s6 & H6 & Heq).
  apply for_items_frame in H6 as (Hset & Hrdy & Hpred & Hsome).
  apply bind_Return in Heq as (samples & s7 & H7 & Heq).
  unfold getattr in H7. destruct (_samples s6) as [s|] eqn:Hs; [|discriminate].
  injection H7 as <- <-.
  apply bind_Return in Heq as (p & s8 & H8 & Heq).
  pose proof H8 as H8'. apply read_only_Return in H8' as ->; [|apply read_only_Predictive].
  unfold Predictive, bind, call in H8. destruct (Predictive_init s); [discriminate|].
  injection H8 as <-.
  simpl in Heq. injection Heq as <- <-. simpl.
  repeat split; try done. eauto.
Qed.
End Load.

Section Inputs.
Context `{Libraries}.

(** [_extract_inputs] reads the name and the data of each input, and
    nothing else. *)
Lemma for_inputs_ext l1 l2 inputs self :
  name_and_data <$> l1 = name_and_data <$> l2 →
  for_inputs l1 inputs self = for_inputs l2 inputs self.
Proof.
  revert l2 inputs self. induction l1 as [|i1 l1 IH]; intros [|i2 l2] inputs self Heq;
    try discriminate; [reflexivity|].
  rewrite !fmap_cons in Heq. injection Heq as Hn Hd Htl.
  simpl. rewrite Hn, Hd. unfold bind.
  destruct (call (np_array (in_data i2)) self) as [[arr|e] self1]; [|reflexivity].
  by apply IH.
Qed.

(** A name that no input carries is not made a keyword. *)
Lemma for_inputs_lookup l inputs self kwargs key :
  fst (for_inputs l inputs self) = Return kwargs →
  (∀ inp, inp ∈ l → in_name inp ≠ key) →
  kwargs !! key = inputs !! key.
Proof.
  revert inputs. induction l as [|inp rest IH]; intros inputs; simpl.
  - intros [= <-] _. reflexivity.
  - unfold bind. destruct (np_array (in_data inp)) as [e|arr]; simpl; [discriminate|].
    intros Heq Hne. rewrite (IH _ Heq).
    + apply lookup_insert_ne. apply Hne. left.
    + intros inp' Hin. apply Hne. by right.
Qed.

(** [_extract_inputs] raises only what [np.array] raises. *)
Lemma for_inputs_Raise l inputs self e :
  fst (for_inputs l inputs self) = Raise e → ∃ x, e = External x.
Proof.
  revert inputs. induction l as [|inp rest IH]; intros inputs; simpl.
  - discriminate.
  - unfold bind. destruct (np_array (in_data inp)) as [x|arr]; simpl.
    + intros [= <-]. eauto.
    + apply IH.
Qed.

Lemma serve_lookup payloads self :
  snd (serve payloads self) = self ∧
  ∀ k payload, payloads !! k = Some payload →
    fst (serve payloads self) !! k = Some (fst (predict payload self)).
Proof.
  induction payloads as [|payload' rest [IHs IHl]]; simpl.
  - split; [done | intros k payload; by rewrite lookup_nil].
  - pose proof (read_only_predict payload' self) as Hro.
    destruct (predict payload' self) as [o self1] eqn:Hp. simpl in Hro. subst self1.
    destruct (serve rest self) as [os self2]. simpl in *. split; [done|].
    intros [|k] payload; simpl.
    + intros [= <-]. by rewrite Hp.
    + apply IHl.
Qed.

(** An [InvalidInputError] can only come out of the library's run of the
    model: no statement of [predict] raises one. *)
Lemma predict_InvalidInputError payload self tensor :
  fst (predict payload self) = Raise (InvalidInputError tensor) →
  ∃ p kwargs,
    Predictive_run (PRNGKey 0) (posterior_samples p) (pred_model p kwargs) =
      inl (InvalidInputError tensor).
Proof.
  rewrite predict_eq.
  destruct (fst (_extract_inputs payload self)) as [inputs|e] eqn:Hin.
  - destruct (_predictive self) as [p|]; [|discriminate].
    unfold Predictive_call. repeat case_decide; try discriminate.
    destruct (Predictive_run _ _ _) as [e|sites] eqn:Hrun; simpl.
    + intros [= ->]. eauto.
    + destruct (sites !! "obs"); discriminate.
  - intros [= ->]. apply for_inputs_Raise in Hin as [x [=]].
Qed.

(** [predict] on an instance that [load] has set up. *)
Lemma predict_loaded self0 b self payload inputs :
  fst (load self0) = Return b → snd (load self0) = self →
  fst (_extract_inputs payload self) = Return inputs →
  "rng_key" ∉ dom inputs → "self" ∉ dom inputs →
  ∃ samples, _samples self = Some samples ∧
    fst (predict payload self) =
      finish payload self (Predictive_run (PRNGKey 0) samples (_model_call inputs)).
Proof.
  intros Hload Hself Hin Hk Hs.
  destruct (load_Return _ _ _ Hload Hself) as (_ & _ & _ & samples & Hsam & Hpred).
  exists samples. split; [done|].
  rewrite predict_eq, Hin, Hpred. rewrite Predictive_call_eq by done. simpl.
  destruct (Predictive_run _ _ _) as [e|sites]; simpl; [done|].
  by destruct (sites !! "obs").
Qed.
End Inputs.

(** * The claims *)

Section Claims.
Context `{Libraries}.

(** C1.  A response returned by [predict] for a request carrying an id has
    that id, and the name and version of the instance that served it.  When
    a batch of requests with distinct ids is served by one instance, the
    response at each position has the id of the request at that position,
    and no other response of the batch has it. *)
Theorem predict_echoes_id_and_identity :
  (∀ payload self id r,
     req_id payload = Some id →
     fst (predict payload self) = Return r →
     resp_id r = Some id ∧
     resp_model_name r = self_name self ∧
     resp_model_version r = self_version self) ∧
  (∀ payloads self k payload id r,
     NoDup (req_id <$> payloads) →
     payloads !! k = Some payload →
     req_id payload = Some id →
     fst (serve payloads self) !! k = Some (Return r) →
     resp_id r = Some id ∧
     resp_model_name r = self_name self ∧
     resp_model_version r = self_version self ∧
     ∀ j r', j ≠ k →
       fst (serve payloads self) !! j = Some (Return r') →
       resp_id r' ≠ Some id).
Proof.
  assert (Hone : ∀ payload self r,
             fst (predict payload self) = Return r →
             resp_id r = req_id payload ∧
             resp_model_name r = self_name self ∧
             resp_model_version r = self_version self).
  { intros payload self r Hp. apply predict_Return in Hp as (obs & ->). done. }
  split.
  - intros payload self id r Hid Hp.
    destruct (Hone payload self r) as (-> & -> & ->); done.
  - intros payloads self k payload id r Hnd Hk Hid Hr.
    destruct (serve_lookup payloads self) as [_ Hserve].
    rewrite (Hserve _ _ Hk) in Hr. injection Hr as Hr.
    destruct (Hone _ _ _ Hr) as (Hrid & -> & ->). rewrite Hrid, Hid.
    repeat split. intros j r' Hjk Hj Hid'.
    destruct (lookup_lt_is_Some_2 payloads j) as [payload' Hj'].
    { apply lookup_lt_Some in Hj. revert Hj.
      clear. revert j self. induction payloads as [|p ps IH]; intros j self; simpl.
      - lia.
      - destruct (predict p self) as [o s1]. specialize (IH (pred j) s1).
        destruct (serve ps s1) as [os s2]. simpl in *. destruct j; simpl in *; lia. }
    rewrite (Hserve _ _ Hj') in Hj. injection Hj as Hj.
    destruct (Hone _ _ _ Hj) as (Hrid' & _ & _).
    apply Hjk. eapply NoDup_lookup; [exact Hnd | |].
    + rewrite list_lookup_fmap, Hj'. simpl. by rewrite <- Hrid', Hid'.
    + rewrite list_lookup_fmap, Hk. simpl. by rewrite Hid.
Qed.

(** C2, as amended.  The single output of a response returned by [predict]
    has the empty shape, whose product is 1 and which has no zero
    dimension, and its data is one bare number, the mean: one scalar value,
    as many as the product of the shape, but not a sequence, so that it has
    no length. *)
Theorem predict_output_is_a_bare_scalar payload self r o :
  fst (predict payload self) = Return r →
  o ∈ resp_outputs r →
  out_shape o = [] ∧
  product (out_shape o) = 1 ∧
  (0 ∉ out_shape o) ∧
  (∃ x, out_data o = PyNum x) ∧
  numel (out_data o) = product (out_shape o) ∧
  py_len (out_data o) = None.
Proof.
  intros Hp Ho. apply predict_Return in Hp as (obs & ->).
  simpl in Ho. apply list_elem_of_singleton in Ho as ->. simpl.
  repeat split; eauto. by intros ?%elem_of_nil.
Qed.

(** C4.  A fresh instance is not ready.  Whenever [load] raises, the ready
    flag is what it was before the call, so that it is still false on an
    instance that was never loaded; whenever [load] returns, it returns
    [True] and the flag is set.  [load] never returns [False]. *)
Theorem load_ready_only_on_success :
  (∀ settings, ready (MLModel_init settings) = false) ∧
  (∀ self,
     match load self with
     | (Return b, self') => b = true ∧ ready self' = true
     | (Raise _, self') => ready self' = ready self
     end) ∧
  (∀ settings,
     match load (MLModel_init settings) with
     | (Return b, self') => b = true ∧ ready self' = true
     | (Raise _, self') => ready self' = false
     end) ∧
  (∀ self, fst (load self) ≠ Return false).
Proof.
  split; [done|]. split; [exact load_post_load|]. split.
  - intros settings. exact (load_post_load (MLModel_init settings)).
  - intros self Hf. pose proof (load_post_load self) as Hpost.
    destruct (load self) as [[b|e] self']; simpl in *; [|discriminate].
    destruct Hpost as [-> _]. discriminate.
Qed.

(** C5.  Two calls of [predict] with the same request, one after the other
    on the same instance, have the same outcome, the same response when
    they return; and on a loaded instance every call hands [Predictive] the
    same key, [PRNGKey 0]. *)
Theorem predict_deterministic self0 b self payload inputs :
  fst (load self0) = Return b → snd (load self0) = self →
  fst (_extract_inputs payload self) = Return inputs →
  "rng_key" ∉ dom inputs → "self" ∉ dom inputs →
  (∀ payload1 payload2 self1,
     payload1 = payload2 →
     fst (predict payload2 (snd (predict payload1 self1))) =
     fst (predict payload1 self1)) ∧
  (∃ samples, _samples self = Some samples ∧
     fst (predict payload self) =
       finish payload self (Predictive_run (PRNGKey 0) samples (_model_call inputs)) ∧
     fst (predict payload (snd (predict payload self))) =
       finish payload self (Predictive_run (PRNGKey 0) samples (_model_call inputs))).
Proof.
  intros Hload Hself Hin Hk Hs. split.
  - intros payload1 payload2 self1 <-. by rewrite read_only_predict.
  - destruct (predict_loaded _ _ _ _ _ Hload Hself Hin Hk Hs) as (samples & Hsam & Hp).
    exists samples. rewrite read_only_predict. done.
Qed.

(** [predict] itself generates no id: called with a request that has none,
    it returns a response that has none either.  An id the response carries
    was given to the request before the call. *)
Lemma predict_does_not_generate_an_id payload self r :
  req_id payload = None →
  fst (predict payload self) = Return r →
  resp_id r = None.
Proof.
  intros Hid Hp. apply predict_Return in Hp as (obs & ->). done.
Qed.

(** C7.  [predict] leaves the instance as it found it, whether it returns
    or raises: [_samples], [_predictive], [ready], [name] and [version] are
    after the call what they were before. *)
Theorem predict_leaves_the_instance_unchanged payload self :
  let self' := snd (predict payload self) in
  self' = self ∧
  _samples self' = _samples self ∧
  _predictive self' = _predictive self ∧
  ready self' = ready self ∧
  self_name self' = self_name self ∧
  self_version self' = self_version self.
Proof. simpl. by rewrite read_only_predict. Qed.

(** C9.  Two requests whose inputs have, in order, the same names and the
    same data are answered alike by an instance: the same exception, or
    responses with the same outputs, whatever the shape, datatype and
    parameters their inputs declare and whatever parameters the requests
    carry; and the same response when the ids are the same too. *)
Theorem predict_reads_names_and_data_only payload1 payload2 self :
  name_and_data <$> req_inputs payload1 = name_and_data <$> req_inputs payload2 →
  outcome_map resp_outputs (fst (predict payload1 self)) =
  outcome_map resp_outputs (fst (predict payload2 self)) ∧
  (req_id payload1 = req_id payload2 →
   fst (predict payload1 self) = fst (predict payload2 self)).
Proof.
  intros Heq. rewrite !predict_eq. unfold _extract_inputs.
  rewrite (for_inputs_ext _ _ _ _ Heq).
  destruct (fst (for_inputs _ _ _)) as [inputs|e]; [|done].
  destruct (_predictive self) as [p|]; [|done].
  destruct (fst (Predictive_call _ _ _ _)) as [predictions|e]; [|done].
  destruct (predictions !! "obs") as [obs|]; [|done].
  simpl. split; [done|]. unfold response_of. by intros ->.
Qed.

(** C10.  A response returned by [predict] has exactly one output, named
    obs_mean and of datatype FP32. *)
Theorem predict_single_output payload self r :
  fst (predict payload self) = Return r →
  ∃ o, resp_outputs r = [o] ∧ out_name o = "obs_mean" ∧ out_datatype o = "FP32".
Proof.
  intros Hp. apply predict_Return in Hp as (obs & ->).
  eexists. split; [reflexivity|]. done.
Qed.
End Claims.

(** * The runtime on the notebook's files and request *)

Section Notebook.
Import Reference.

Example load_succeeds :
  fst (load (MLModel_init model_settings)) = Return true ∧ ready loaded = true.
Proof. split; reflexivity. Qed.

Example load_fails_on_a_missing_file :
  load (MLModel_init missing_file_settings) =
    (Raise (External "FileNotFoundError"), MLModel_init missing_file_settings).
Proof. reflexivity. Qed.

(** [load] can raise after it has assigned [_samples]: the flag stays false. *)
Example load_fails_on_a_file_that_is_no_object :
  load (MLModel_init array_file_settings) =
    (Raise (AttributeError "items"),
     {| _settings := array_file_settings; ready := false;
        _samples := Some ∅; _predictive := None |}).
Proof. reflexivity. Qed.

Example predict_inference_request :
  fst (predict inference_request loaded) = Return (obs_mean_response None (197 # 20)).
Proof. reflexivity. Qed.

Example predict_before_load :
  fst (predict inference_request (MLModel_init model_settings)) =
    Raise (AttributeError "_predictive").
Proof. reflexivity. Qed.

Lemma predict_echoes_id_and_identity_witness :
  (resp_id (obs_mean_response (Some "r1") (197 # 20)) = Some "r1" ∧
   resp_model_name (obs_mean_response (Some "r1") (197 # 20)) = self_name loaded ∧
   resp_model_version (obs_mean_response (Some "r1") (197 # 20)) = self_version loaded) ∧
  (resp_id (obs_mean_response (Some "r2") (197 # 20)) = Some "r2" ∧
   resp_model_name (obs_mean_response (Some "r2") (197 # 20)) = self_name loaded ∧
   resp_model_version (obs_mean_response (Some "r2") (197 # 20)) = self_version loaded ∧
   ∀ j r', j ≠ 1 →
     fst (serve batch loaded) !! j = Some (Return r') → resp_id r' ≠ Some "r2").
Proof.
  split.
  - apply (proj1 predict_echoes_id_and_identity (request_with_id "r1") loaded "r1"
             (obs_mean_response (Some "r1") (197 # 20))).
    + reflexivity.
    + reflexivity.
  - apply (proj2 predict_echoes_id_and_identity batch loaded 1
             (request_with_id "r2") "r2" (obs_mean_response (Some "r2") (197 # 20))).
    + apply (bool_decide_unpack _). exact I.
    + reflexivity.
    + reflexivity.
    + reflexivity.
Defined.

(** The output of the notebook's request is the number 197/20, which has no
    length: the tensor invariant, as the payload model states it, fails. *)
Lemma predict_output_breaks_tensor_invariant :
  ¬ (∀ r o, fst (predict inference_request loaded) = Return r →
            o ∈ resp_outputs r → tensor_invariant o).
Proof.
  intros Hall.
  destruct (Hall (obs_mean_response None (197 # 20)) (obs_mean_output (197 # 20)))
    as [Hlen _].
  - reflexivity.
  - simpl. apply list_elem_of_singleton. reflexivity.
  - discriminate Hlen.
Qed.

Lemma predict_output_is_a_bare_scalar_witness :
  let o := obs_mean_output (197 # 20) in
  out_shape o = [] ∧
  product (out_shape o) = 1 ∧
  (0 ∉ out_shape o) ∧
  (∃ x, out_data o = PyNum x) ∧
  numel (out_data o) = product (out_shape o) ∧
  py_len (out_data o) = None.
Proof.
  apply (predict_output_is_a_bare_scalar inference_request loaded
           (obs_mean_response None (197 # 20))).
  - reflexivity.
  - simpl. apply list_elem_of_singleton. reflexivity.
Defined.

(** A request with no input at all, hence with neither marriage nor age, is
    answered: [predict] returns a response and raises no
    [InvalidInputError]. *)
Lemma predict_answers_a_request_without_inputs :
  req_inputs empty_request = [] ∧
  (∃ r, fst (predict empty_request loaded) = Return r) ∧
  ¬ (∃ tensor, fst (predict empty_request loaded) = Raise (InvalidInputError tensor)).
Proof.
  split; [reflexivity|]. split; [eexists; reflexivity|].
  intros [tensor Hraise].
  change (Return (obs_mean_response (Some "r0") (1 # 20)) =
          Raise (InvalidInputError tensor)) in Hraise.
  discriminate Hraise.
Qed.

Lemma predict_deterministic_witness :
  (∀ payload1 payload2 self1,
     payload1 = payload2 →
     fst (predict payload2 (snd (predict payload1 self1))) =
     fst (predict payload1 self1)) ∧
  (∃ samples, _samples loaded = Some samples ∧
     fst (predict inference_request loaded) =
       finish inference_request loaded
         (Predictive_run (PRNGKey 0) samples
            (_model_call {[ "marriage" := mk_ndarray [1] [28.0%Q] ]})) ∧
     fst (predict inference_request (snd (predict inference_request loaded))) =
       finish inference_request loaded
         (Predictive_run (PRNGKey 0) samples
            (_model_call {[ "marriage" := mk_ndarray [1] [28.0%Q] ]}))).
Proof.
  apply (predict_deterministic (MLModel_init model_settings) true loaded
           inference_request {[ "marriage" := mk_ndarray [1] [28.0%Q] ]}).
  - reflexivity.
  - reflexivity.
  - reflexivity.
  - rewrite dom_singleton_L. set_solver.
  - rewrite dom_singleton_L. set_solver.
Defined.

(** Called directly with the notebook's request, which carries no id,
    [predict] returns a response without one. *)
Example predict_returns_no_id_for_a_request_without_id :
  req_id inference_request = None ∧
  ∃ r, fst (predict inference_request loaded) = Return r ∧ resp_id r = None.
Proof.
  split; [reflexivity|]. exists (obs_mean_response None (197 # 20)).
  split; reflexivity.
Qed.

Lemma predict_reads_names_and_data_only_witness :
  outcome_map resp_outputs (fst (predict inference_request loaded)) =
  outcome_map resp_outputs (fst (predict inference_request' loaded)) ∧
  (req_id inference_request = req_id inference_request' →
   fst (predict inference_request loaded) = fst (predict inference_request' loaded)).
Proof.
  apply (predict_reads_names_and_data_only inference_request inference_request' loaded).
  reflexivity.
Defined.

Lemma predict_single_output_witness :
  ∃ o, resp_outputs (obs_mean_response None (197 # 20)) = [o] ∧
       out_name o = "obs_mean" ∧ out_datatype o = "FP32".
Proof.
  apply (predict_single_output inference_request loaded
           (obs_mean_response None (197 # 20))).
  reflexivity.
Defined.
End Notebook.

(** * Further properties of the code *)

Section LoopLemmas.
Context `{Libraries}.

Lemma last_with_cons {A} (key_of : A → string) key x l :
  last_with key_of key (x :: l) =
    match last_with key_of key l with
    | Some y => Some y
    | None => if decide (key_of x = key) then Some x else None
    end.
Proof.
  unfold last_with. destruct (decide (key_of x = key)) as [Hk|Hk].
  - rewrite filter_cons_True by done. rewrite last_cons. reflexivity.
  - rewrite filter_cons_False by done. by destruct (last _).
Qed.

Lemma last_with_Some {A} (key_of : A → string) key l x :
  last_with key_of key l = Some x → x ∈ l ∧ key_of x = key.
Proof.
  unfold last_with. intros Hl. apply last_Some_elem_of in Hl.
  by apply list_elem_of_filter in Hl as [? ?].
Qed.

Lemma last_with_None {A} (key_of : A → string) key l :
  last_with key_of key l = None ↔ ∀ x, x ∈ l → key_of x ≠ key.
Proof.
  unfold last_with. rewrite last_None. split.
  - intros Hnil x Hx Hk.
    assert (Hin : x ∈ filter (λ x, key_of x = key) l) by by apply list_elem_of_filter.
    rewrite Hnil in Hin. by apply elem_of_nil in Hin.
  - intros Hall. induction l as [|y l IH]; [done|].
    rewrite filter_cons_False by (apply Hall; left).
    apply IH. intros x Hx. apply Hall. by right.
Qed.

(** With distinct keys, the element under a key is the one there is. *)
Lemma last_with_NoDup {A} (key_of : A → string) l x :
  NoDup (key_of <$> l) → x ∈ l → last_with key_of (key_of x) l = Some x.
Proof.
  intros Hnd Hx.
  destruct (last_with key_of (key_of x) l) as [y|] eqn:Hl.
  - apply last_with_Some in Hl as [Hy Hk]. f_equal.
    apply list_elem_of_lookup in Hx as [i Hi]. apply list_elem_of_lookup in Hy as [j Hj].
    assert (i = j) as ->; [|congruence].
    eapply NoDup_lookup; [exact Hnd | |].
    + rewrite list_lookup_fmap, Hi. reflexivity.
    + rewrite list_lookup_fmap, Hj. simpl. by rewrite Hk.
  - rewrite last_with_None in Hl. by destruct (Hl x Hx).
Qed.

(** The dict a loop leaves when no conversion stopped it: under each key
    the conversion of the last element that goes under it. *)
Lemma fill_lookup {A} (key_of : A → string) conv (l : list A) acc m key :
  fill key_of conv l acc = (None, m) →
  m !! key = match last_with key_of key l with
             | Some x => match conv x with inr a => Some a | inl _ => None end
             | None => acc !! key
             end.
Proof.
  revert acc. induction l as [|x rest IH]; intros acc; simpl.
  - intros [= <-]. reflexivity.
  - destruct (conv x) as [e|a] eqn:Hc; [discriminate|].
    intros Hfill. rewrite (IH _ Hfill), last_with_cons.
    destruct (last_with key_of key rest) as [y|]; [reflexivity|].
    destruct (decide (key_of x = key)) as [<-|Hne].
    + by rewrite lookup_insert_eq, Hc.
    + by rewrite lookup_insert_ne.
Qed.

Lemma fill_None {A} (key_of : A → string) conv (l : list A) acc :
  fst (fill key_of conv l acc) = None ↔ Forall (λ x, ∃ a, conv x = inr a) l.
Proof.
  revert acc. induction l as [|x rest IH]; intros acc; simpl.
  - split; [constructor | done].
  - destruct (conv x) as [e|a] eqn:Hc; simpl.
    + split; [discriminate|]. intros Hall. apply Forall_cons in Hall as [[a Ha] _].
      congruence.
    + rewrite IH. split.
      * intros Hall. constructor; eauto.
      * intros Hall. by apply Forall_cons in Hall as [_ ?].
Qed.

(** The exception of a loop is that of the first conversion that raises. *)
Lemma fill_Some {A} (key_of : A → string) conv (l : list A) acc e :
  fst (fill key_of conv l acc) = Some e ↔
  ∃ pre x suf, l = pre ++ x :: suf ∧
    Forall (λ x, ∃ a, conv x = inr a) pre ∧ conv x = inl e.
Proof.
  revert acc. induction l as [|x rest IH]; intros acc; simpl.
  - split; [discriminate|]. intros (pre & y & suf & Heq & _). by destruct pre.
  - destruct (conv x) as [e'|a] eqn:Hc; simpl.
    + split.
      * intros [= ->]. exists [], x, rest. repeat split; [constructor | done].
      * intros ([|y pre] & z & suf & Heq & Hpre & Hz); simplify_eq/=; [congruence|].
        apply Forall_cons in Hpre as [[a Ha] _]. congruence.
    + rewrite IH. split.
      * intros (pre & z & suf & -> & Hpre & Hz). exists (x :: pre), z, suf.
        repeat split; [constructor; eauto | done].
      * intros ([|y pre] & z & suf & Heq & Hpre & Hz); simplify_eq/=; [congruence|].
        apply Forall_cons in Hpre as [_ Hpre]. eauto 10.
Qed.

(** The loop of [_extract_inputs] is such a loop on a local dict. *)
Lemma for_inputs_fill l acc self :
  for_inputs l acc self =
    (match fill in_name (λ inp, np_array (in_data inp)) l acc with
     | (None, kwargs) => Return kwargs
     | (Some e, _) => Raise (External e)
     end, self).
Proof.
  revert acc. induction l as [|inp rest IH]; intros acc; simpl; [reflexivity|].
  unfold bind. destruct (np_array (in_data inp)) as [e|a]; simpl; [reflexivity|].
  apply IH.
Qed.

(** The loop of [load] is such a loop on [self._samples]. *)
Lemma for_items_fill items acc self :
  _samples self = Some acc →
  for_items items self =
    (match fst (fill fst (λ kv, np_array kv.2) items acc) with
     | None => Return tt
     | Some e => Raise (External e)
     end,
     set__samples (snd (fill fst (λ kv, np_array kv.2) items acc)) self).
Proof.
  revert acc self. induction items as [|[k v] rest IH]; intros acc self Hs; simpl.
  - destruct self; simpl in *; by subst.
  - unfold bind at 1. destruct (np_array v) as [e|a]; simpl.
    + destruct self; simpl in *; by subst.
    + unfold bind at 1, setitem__samples, bind at 1, getattr. rewrite Hs. simpl.
      rewrite (IH (<[k:=a]> acc)) by done. reflexivity.
Qed.

(** [load] in direct style. *)
Lemma load_eq self :
  load self =
    match get_model_uri (_settings self) with
    | inl e => (Raise (External e), self)
    | inr model_uri =>
        match read_json model_uri with
        | inl e => (Raise (External e), self)
        | inr (PyDict items) =>
            match fill fst (λ kv, np_array kv.2) items ∅ with
            | (Some e, partial) => (Raise (External e), set__samples partial self)
            | (None, samples) =>
                match Predictive_init samples with
                | inl e => (Raise (External e), set__samples samples self)
                | inr _ => (Return true, loaded_instance (_settings self) samples)
                end
            end
        | inr _ => (Raise (AttributeError "items"), set__samples ∅ self)
        end
    end.
Proof.
  unfold load. unfold bind at 1, gets. unfold bind at 1.
  destruct (get_model_uri (_settings self)) as [e|model_uri]; simpl; [reflexivity|].
  unfold bind at 1. destruct (read_json model_uri) as [e|raw]; simpl; [reflexivity|].
  unfold bind at 1, modify. unfold bind at 1.
  destruct raw as [| | | | |items]; simpl; try reflexivity.
  unfold bind at 1. rewrite (for_items_fill items ∅) by reflexivity.
  destruct (fill fst _ items ∅) as [[e|] samples]; simpl; [reflexivity|].
  unfold bind, getattr, Predictive, bind, call, raise, ret, modify, gets. simpl.
  destruct (Predictive_init samples) as [e|[]]; reflexivity.
Qed.
End LoopLemmas.

Section MoreLemmas.
Context `{Libraries}.

Lemma fill_lookup_Some {A} (key_of : A → string) conv (l : list A) m key a :
  fill key_of conv l ∅ = (None, m) →
  m !! key = Some a ↔ ∃ x, last_with key_of key l = Some x ∧ conv x = inr a.
Proof.
  intros Hfill. rewrite (fill_lookup _ _ _ _ _ key Hfill).
  destruct (last_with key_of key l) as [x|].
  - destruct (conv x) as [e|a'] eqn:Hc; split.
    + discriminate.
    + intros (y & [= <-] & Hy). congruence.
    + intros [= <-]. eauto.
    + intros (y & [= <-] & Hy). congruence.
  - rewrite lookup_empty. split; [discriminate | by intros (? & [=] & _)].
Qed.

Lemma fill_dom {A} (key_of : A → string) conv (l : list A) m :
  fill key_of conv l ∅ = (None, m) →
  dom m = list_to_set (key_of <$> l).
Proof.
  intros Hfill. apply set_eq. intros key.
  rewrite elem_of_dom, elem_of_list_to_set, list_elem_of_fmap.
  assert (Hall : Forall (λ x, ∃ a, conv x = inr a) l).
  { apply (fill_None key_of conv l ∅). by rewrite Hfill. }
  split.
  - intros [a Ha]. apply (fill_lookup_Some _ _ _ _ _ _ Hfill) in Ha as (x & Hx & _).
    apply last_with_Some in Hx as [? ?]. eauto.
  - intros (x & -> & Hx).
    destruct (last_with key_of (key_of x) l) as [y|] eqn:Hy.
    + pose proof Hy as Hy'. apply last_with_Some in Hy' as [Hin _].
      rewrite Forall_forall in Hall. destruct (Hall y Hin) as [a Ha].
      exists a. apply (fill_lookup_Some _ _ _ _ _ _ Hfill). eauto.
    + rewrite last_with_None in Hy. by destruct (Hy x Hx).
Qed.

Lemma _extract_inputs_fill payload self :
  fst (_extract_inputs payload self) =
    match fill in_name (λ inp, np_array (in_data inp)) (req_inputs payload) ∅ with
    | (None, kwargs) => Return kwargs
    | (Some e, _) => Raise (External e)
    end.
Proof. unfold _extract_inputs. by rewrite for_inputs_fill. Qed.

Lemma _extract_inputs_Return payload self kwargs :
  fst (_extract_inputs payload self) = Return kwargs ↔
  fill in_name (λ inp, np_array (in_data inp)) (req_inputs payload) ∅ = (None, kwargs).
Proof.
  rewrite _extract_inputs_fill.
  destruct (fill _ _ _ _) as [[e|] m]; split; intros Heq; simplify_eq; done.
Qed.

(** [predict] reads the settings and [_predictive] of the instance, and
    nothing else of it. *)
Lemma predict_frame payload self self' :
  _settings self = _settings self' →
  _predictive self = _predictive self' →
  fst (predict payload self) = fst (predict payload self').
Proof.
  intros Hset Hpred. rewrite !predict_eq, !_extract_inputs_fill.
  destruct (fill _ _ _ _) as [[e|] kwargs]; [done|].
  rewrite <- Hpred. destruct (_predictive self) as [p|]; [|done].
  assert (Hcall : fst (Predictive_call p (PRNGKey 0) kwargs self) =
                  fst (Predictive_call p (PRNGKey 0) kwargs self')).
  { unfold Predictive_call. repeat case_decide; try done.
    by destruct (Predictive_run _ _ _). }
  rewrite <- Hcall. destruct (fst (Predictive_call _ _ _ _)) as [sites|e]; [|done].
  destruct (sites !! "obs") as [obs|]; [|done].
  simpl. unfold response_of, self_name, self_version. by rewrite Hset.
Qed.

Lemma foldl_insert_lookup {A V} (f : A → V) (l : list (string * A))
    (acc : gmap string V) key :
  foldl (λ acc kv, <[kv.1 := f kv.2]> acc) acc l !! key =
    match last_with fst key l with
    | Some kv => Some (f kv.2)
    | None => acc !! key
    end.
Proof.
  revert acc. induction l as [|[k v] rest IH]; intros acc; simpl; [reflexivity|].
  rewrite IH, last_with_cons. destruct (last_with fst key rest); [reflexivity|].
  simpl. destruct (decide (k = key)) as [->|Hne].
  - by rewrite lookup_insert_eq.
  - by rewrite lookup_insert_ne.
Qed.

Lemma last_with_map_to_list {V} (m : gmap string V) key :
  last_with fst key (map_to_list m) = (λ v, (key, v)) <$> m !! key.
Proof.
  destruct (m !! key) as [v|] eqn:Hm; simpl.
  - apply elem_of_map_to_list in Hm.
    apply (last_with_NoDup fst _ (key, v)); [apply NoDup_fst_map_to_list | done].
  - apply last_with_None. intros [k v] Hin <-.
    apply elem_of_map_to_list in Hin. simpl in Hm. congruence.
Qed.

(** The saving cell converts every array of the samples, key by key. *)
Lemma serialisable_lookup (samples : gmap string (ndarray F)) key :
  serialisable samples !! key = (λ a, tolist (np_asarray a)) <$> samples !! key.
Proof.
  unfold serialisable.
  etrans; [apply (foldl_insert_lookup (λ a : ndarray F, tolist (np_asarray a)))|].
  rewrite last_with_map_to_list.
  destruct (samples !! key); [reflexivity | apply lookup_empty].
Qed.
End MoreLemmas.

(** ** Properties of [load] *)

Section LoadProperties.
Context `{Libraries}.

(** X1.  When [load] returns, the settings resolved to a file that holds a
    JSON object all of whose values [np.array] accepted, [Predictive]
    accepted the samples, and the instance is left with the same settings,
    ready, with [_samples] holding under each key of the object the array of
    its last value and nothing else, and with [_predictive] built from
    [_model] and these samples. *)
Theorem load_returns self b :
  fst (load self) = Return b →
  ∃ model_uri items samples,
    get_model_uri (_settings self) = inr model_uri ∧
    read_json model_uri = inr (PyDict items) ∧
    Forall (λ kv, converts kv.2) items ∧
    (∀ key a, samples !! key = Some a ↔
       ∃ kv, last_with fst key items = Some kv ∧ np_array kv.2 = inr a) ∧
    dom samples = list_to_set (items.*1) ∧
    Predictive_init samples = inr tt ∧
    snd (load self) = loaded_instance (_settings self) samples.
Proof.
  rewrite load_eq.
  destruct (get_model_uri (_settings self)) as [e|model_uri]; [discriminate|].
  destruct (read_json model_uri) as [e|raw] eqn:Hread; [discriminate|].
  destruct raw as [| | | | |items]; try discriminate.
  destruct (fill fst _ items ∅) as [[e|] samples] eqn:Hfill; [discriminate|].
  destruct (Predictive_init samples) as [e|[]] eqn:Hinit; [discriminate|].
  intros _. exists model_uri, items, samples. repeat split; try done.
  - apply (fill_None fst (λ kv, np_array kv.2) items ∅). by rewrite Hfill.
  - by apply (fill_lookup_Some fst (λ kv, np_array kv.2)).
  - by apply (fill_lookup_Some fst (λ kv, np_array kv.2)).
  - by apply (fill_dom fst (λ kv, np_array kv.2)).
Qed.

(** X2.  When [load] raises, the settings, the ready flag and [_predictive]
    are what they were, whatever happened to [_samples]: [predict] answers
    every request after the failed call as it did before it. *)
Theorem load_failure_keeps_predict self e :
  fst (load self) = Raise e →
  _settings (snd (load self)) = _settings self ∧
  ready (snd (load self)) = ready self ∧
  _predictive (snd (load self)) = _predictive self ∧
  ∀ payload,
    fst (predict payload (snd (load self))) = fst (predict payload self).
Proof.
  intros Hraise.
  assert (Hframe : _settings (snd (load self)) = _settings self ∧
                   ready (snd (load self)) = ready self ∧
                   _predictive (snd (load self)) = _predictive self).
  { revert Hraise. rewrite load_eq.
    destruct (get_model_uri (_settings self)) as [?|model_uri]; [done|].
    destruct (read_json model_uri) as [?|raw]; [done|].
    destruct raw as [| | | | |items]; try done.
    destruct (fill fst _ items ∅) as [[?|] samples]; [done|].
    destruct (Predictive_init samples) as [?|[]]; [done | discriminate]. }
  destruct Hframe as (Hset & Hrdy & Hpred). repeat split; try done.
  intros payload. by apply predict_frame.
Qed.

(** X3.  The outcome of [load] depends on the settings of the instance only,
    and so does the instance a successful [load] leaves: what [_samples],
    [_predictive] and [ready] held before is replaced, not merged. *)
Theorem load_depends_on_settings_only self1 self2 :
  _settings self1 = _settings self2 →
  fst (load self1) = fst (load self2) ∧
  ∀ b, fst (load self1) = Return b → snd (load self1) = snd (load self2).
Proof.
  intros Hset. rewrite !load_eq, <- Hset.
  destruct (get_model_uri (_settings self1)) as [?|model_uri]; [done|].
  destruct (read_json model_uri) as [?|raw]; [done|].
  destruct raw as [| | | | |items]; try done.
  destruct (fill fst _ items ∅) as [[?|] samples]; [done|].
  destruct (Predictive_init samples) as [?|[]]; done.
Qed.

(** X4.  [load] reads back what the saving cell wrote: when the settings
    resolve to the file that holds the serialised samples, [np.array] gives
    back each array from its list and [Predictive] accepts the samples,
    [load] returns [True] and leaves the instance with exactly these
    samples. *)
Theorem load_reads_back_saved_samples self samples model_uri :
  get_model_uri (_settings self) = inr model_uri →
  read_json model_uri = inr (json_object (serialisable samples)) →
  (∀ key a, samples !! key = Some a → np_array (tolist (np_asarray a)) = inr a) →
  Predictive_init samples = inr tt →
  load self = (Return true, loaded_instance (_settings self) samples).
Proof.
  intros Huri Hread Hnp Hinit. rewrite load_eq, Huri, Hread. unfold json_object.
  destruct (fill fst _ (map_to_list (serialisable samples)) ∅) as [o m] eqn:Hfill.
  assert (Hitem : ∀ kv, kv ∈ map_to_list (serialisable samples) →
                        ∃ a, samples !! kv.1 = Some a ∧ np_array kv.2 = inr a).
  { intros [k v] Hin. apply elem_of_map_to_list in Hin.
    rewrite serialisable_lookup in Hin. simpl.
    destruct (samples !! k) as [a|] eqn:Hk; [|discriminate].
    injection Hin as <-. eauto. }
  assert (Ho : o = None).
  { change o with (fst (o, m)). rewrite <- Hfill. apply fill_None.
    apply Forall_forall. intros kv Hin. destruct (Hitem kv Hin) as (a & _ & Ha). eauto. }
  subst o.
  assert (Hm : m = samples).
  { apply map_eq. intros key.
    rewrite (fill_lookup _ _ _ _ _ key Hfill), last_with_map_to_list, lookup_empty.
    rewrite serialisable_lookup.
    destruct (samples !! key) as [a|] eqn:Hk; simpl; [|reflexivity].
    by rewrite (Hnp _ _ Hk). }
  subst m. by rewrite Hinit.
Qed.
End LoadProperties.

(** ** Properties of [_extract_inputs] and [predict] *)

Section PredictProperties.
Context `{Libraries}.

(** X5.  The keyword arguments [_extract_inputs] returns have the names of
    the inputs as their keys, and under each name the array of the data of
    the last input of that name: an earlier input of the same name is
    dropped. *)
Theorem _extract_inputs_last_input_wins payload self kwargs :
  fst (_extract_inputs payload self) = Return kwargs →
  dom kwargs = list_to_set (in_name <$> req_inputs payload) ∧
  ∀ key a, kwargs !! key = Some a ↔
    ∃ inp, last_with in_name key (req_inputs payload) = Some inp ∧
           np_array (in_data inp) = inr a.
Proof.
  rewrite _extract_inputs_Return. intros Hfill. split.
  - by apply (fill_dom in_name (λ inp, np_array (in_data inp))).
  - intros key a. by apply (fill_lookup_Some in_name (λ inp, np_array (in_data inp))).
Qed.

(** X6.  [_extract_inputs] returns exactly when [np.array] accepts the data
    of every input, and otherwise raises what [np.array] raised on the first
    input whose data it refused; the inputs after that one are not looked
    at. *)
Theorem _extract_inputs_raises_on_first_bad_input payload self :
  ((∃ kwargs, fst (_extract_inputs payload self) = Return kwargs) ↔
   Forall (λ inp, converts (in_data inp)) (req_inputs payload)) ∧
  (∀ e, fst (_extract_inputs payload self) = Raise e ↔
     ∃ pre inp suf x,
       req_inputs payload = pre ++ inp :: suf ∧
       Forall (λ inp, converts (in_data inp)) pre ∧
       np_array (in_data inp) = inl x ∧ e = External x).
Proof.
  rewrite _extract_inputs_fill.
  pose proof (fill_None in_name (λ inp, np_array (in_data inp)) (req_inputs payload) ∅)
    as Hnone.
  pose proof (fill_Some in_name (λ inp, np_array (in_data inp)) (req_inputs payload) ∅)
    as Hsome.
  destruct (fill _ _ _ _) as [[x|] kwargs]; simpl in *; split.
  - rewrite <- Hnone. split; [by intros [? ?] | discriminate].
  - intros e. split.
    + intros [= <-]. destruct (proj1 (Hsome x) eq_refl) as (pre & inp & suf & ? & ? & ?).
      exists pre, inp, suf, x. done.
    + intros (pre & inp & suf & x' & Heq & Hpre & Hx & ->).
      f_equal. f_equal. symmetry.
      assert (Some x = Some x') as [= ->]; [|done].
      apply Hsome. exists pre, inp, suf. done.
  - rewrite <- Hnone. split; [done | eauto].
  - intros e. split; [discriminate|].
    intros (pre & inp & suf & x' & Heq & Hpre & Hx & ->).
    assert (None = Some x') as [=]. apply Hsome. exists pre, inp, suf. done.
Qed.

(** X7.  [predict] checks neither [ready] nor [_samples]: two instances with
    the same settings and the same [_predictive] answer every request alike,
    so that an instance whose flag is false but whose [_predictive] is set
    serves as a ready one does. *)
Theorem predict_does_not_check_ready payload self self' :
  _settings self = _settings self' →
  _predictive self = _predictive self' →
  fst (predict payload self) = fst (predict payload self').
Proof. apply predict_frame. Qed.

(** X8.  Every exception of [predict] is one of five: what [np.array] raised
    on the data of an input; an [AttributeError] because [_predictive] was
    never assigned; a [TypeError] because an input is named rng_key or self;
    what the run of the model under [Predictive] raised; or a [KeyError]
    because that run returned no site obs. *)
Theorem predict_raises payload self e :
  fst (predict payload self) = Raise e →
  (∃ inp x, inp ∈ req_inputs payload ∧
            np_array (in_data inp) = inl x ∧ e = External x) ∨
  (e = AttributeError "_predictive" ∧ _predictive self = None) ∨
  (∃ msg inp, e = TypeError msg ∧ inp ∈ req_inputs payload ∧
              (in_name inp = "rng_key" ∨ in_name inp = "self")) ∨
  (∃ p kwargs, _predictive self = Some p ∧
     fst (_extract_inputs payload self) = Return kwargs ∧
     Predictive_run (PRNGKey 0) (posterior_samples p) (pred_model p kwargs) = inl e) ∨
  (e = KeyError "obs" ∧
   ∃ p kwargs sites, _predictive self = Some p ∧
     fst (_extract_inputs payload self) = Return kwargs ∧
     Predictive_run (PRNGKey 0) (posterior_samples p) (pred_model p kwargs) = inr sites ∧
     sites !! "obs" = None).
Proof.
  rewrite predict_eq.
  destruct (fst (_extract_inputs payload self)) as [kwargs|e'] eqn:Hin.
  - destruct (_predictive self) as [p|]; [|intros [= <-]; eauto].
    assert (Hname : ∀ key, key ∈ dom kwargs →
                           ∃ inp, inp ∈ req_inputs payload ∧ in_name inp = key).
    { intros key Hkey.
      destruct (_extract_inputs_last_input_wins _ _ _ Hin) as [Hdom _].
      rewrite Hdom, elem_of_list_to_set, list_elem_of_fmap in Hkey.
      destruct Hkey as (inp & -> & ?). eauto. }
    unfold Predictive_call.
    destruct (decide ("rng_key" ∈ dom kwargs)) as [Hk|Hk].
    { intros [= <-]. destruct (Hname _ Hk) as (inp & ? & ?).
      right; right; left. eauto 10. }
    destruct (decide ("self" ∈ dom kwargs)) as [Hs|Hs].
    { intros [= <-]. destruct (Hname _ Hs) as (inp & ? & ?).
      right; right; left. eauto 10. }
    destruct (Predictive_run _ _ _) as [e'|sites] eqn:Hrun; simpl.
    + intros [= <-]. right; right; right; left. eauto.
    + destruct (sites !! "obs") eqn:Hobs; [discriminate|].
      intros [= <-]. right; right; right; right. eauto 10.
  - intros [= <-]. left.
    destruct (proj1 (proj2 (_extract_inputs_raises_on_first_bad_input payload self) e') Hin)
      as (pre & inp & suf & x & Heq & _ & Hx & ->).
    exists inp, x. repeat split; try done. rewrite Heq. set_solver.
Qed.

(** X9.  A request one of whose inputs is named rng_key or self cannot be
    served: when [np.array] accepts the data of all the inputs and
    [_predictive] is set, [predict] raises a [TypeError], without running
    the model. *)
Theorem predict_rejects_the_names_of_the_call payload self kwargs p inp :
  fst (_extract_inputs payload self) = Return kwargs →
  _predictive self = Some p →
  inp ∈ req_inputs payload →
  in_name inp = "rng_key" ∨ in_name inp = "self" →
  ∃ msg, fst (predict payload self) = Raise (TypeError msg).
Proof.
  intros Hin Hp Hinp Hname. rewrite predict_eq, Hin, Hp.
  destruct (_extract_inputs_last_input_wins _ _ _ Hin) as [Hdom _].
  assert (Hkey : in_name inp ∈ dom kwargs).
  { rewrite Hdom, elem_of_list_to_set, list_elem_of_fmap. eauto. }
  unfold Predictive_call.
  destruct (decide ("rng_key" ∈ dom kwargs)) as [Hk|Hk]; [simpl; eauto|].
  destruct (decide ("self" ∈ dom kwargs)) as [Hs|Hs]; [simpl; eauto|].
  destruct Hname as [Hn|Hn]; rewrite Hn in Hkey; done.
Qed.

(** X12.  A response of [predict] carries, as its one number, the mean of
    all the elements of the site obs that the run of the model returned, a
    run made on the posterior samples of [_predictive], with the key
    [PRNGKey 0] and the keyword arguments extracted from the request. *)
Theorem predict_returns_the_mean_of_obs payload self r :
  fst (predict payload self) = Return r →
  ∃ p kwargs sites obs,
    _predictive self = Some p ∧
    fst (_extract_inputs payload self) = Return kwargs ∧
    Predictive_run (PRNGKey 0) (posterior_samples p) (pred_model p kwargs) = inr sites ∧
    sites !! "obs" = Some obs ∧
    (out_data <$> resp_outputs r) = [PyNum (fmean (flat obs))].
Proof.
  rewrite predict_eq.
  destruct (fst (_extract_inputs payload self)) as [kwargs|?]; [|discriminate].
  destruct (_predictive self) as [p|]; [|discriminate].
  unfold Predictive_call. repeat case_decide; try discriminate.
  destruct (Predictive_run _ _ _) as [?|sites] eqn:Hrun; [discriminate|]. simpl.
  destruct (sites !! "obs") as [obs|] eqn:Hobs; [|discriminate].
  intros [= <-]. exists p, kwargs, sites, obs. done.
Qed.

(** X13.  An input under a name that is no parameter of [_model] is not
    ignored: on a loaded instance the call of the model that [Predictive] is
    handed fails with a [TypeError] before it reaches any site, whatever the
    other inputs are. *)
Theorem predict_unknown_input_name self0 b self payload kwargs inp :
  fst (load self0) = Return b → snd (load self0) = self →
  fst (_extract_inputs payload self) = Return kwargs →
  (∀ inp', inp' ∈ req_inputs payload →
     in_name inp' ≠ "rng_key" ∧ in_name inp' ≠ "self") →
  inp ∈ req_inputs payload →
  in_name inp ∉ model_params →
  ∃ samples msg,
    _samples self = Some samples ∧
    _model_call kwargs = Fail (TypeError msg) ∧
    fst (predict payload self) =
      finish payload self (Predictive_run (PRNGKey 0) samples (Fail (TypeError msg))).
Proof.
  intros Hload Hself Hin Hnames Hinp Hparam.
  destruct (_extract_inputs_last_input_wins _ _ _ Hin) as [Hdom _].
  assert (Hnot : ∀ key, (∀ inp', inp' ∈ req_inputs payload → in_name inp' ≠ key) →
                        key ∉ dom kwargs).
  { intros key Hkey. rewrite Hdom, elem_of_list_to_set, list_elem_of_fmap.
    intros (inp' & -> & Hin'). by apply (Hkey inp'). }
  destruct (predict_loaded self0 b self payload kwargs) as (samples & Hsam & Hp);
    try done.
  { apply Hnot. intros inp' Hin'. by apply Hnames. }
  { apply Hnot. intros inp' Hin'. by apply Hnames. }
  assert (Hcall : _model_call kwargs =
                  Fail (TypeError "_model() got an unexpected keyword argument")).
  { unfold _model_call. rewrite decide_False; [done|].
    intros Hsub. apply Hparam, Hsub.
    rewrite Hdom, elem_of_list_to_set, list_elem_of_fmap. eauto. }
  exists samples, "_model() got an unexpected keyword argument".
  by rewrite Hp, Hcall.
Qed.
End PredictProperties.

(** ** Properties of the model *)

Section ModelProperties.
Context `{Libraries}.

(** X10.  Under any handler, a run of [_model] reaches its sites in the
    order a, bM, bA, sigma, obs, with bM only when [marriage] is given and
    bA only when [age] is given; it stops early only on an exception of the
    arithmetic on the arrays, and then before obs; no site but obs is given
    an observation, and obs is given [divorce]. *)
Theorem _model_sites h marriage age divorce :
  (fst (trace_of h (_model marriage age divorce))).*1 `prefix_of`
    sites_for marriage age ∧
  (∀ site obs, (site, obs) ∈ fst (trace_of h (_model marriage age divorce)) →
     obs = if decide (site = "obs") then divorce else None) ∧
  (∀ u, snd (trace_of h (_model marriage age divorce)) = inr u →
     (fst (trace_of h (_model marriage age divorce))).*1 = sites_for marriage age) ∧
  (∀ e, snd (trace_of h (_model marriage age divorce)) = inl e →
     (∃ x, e = External x) ∧
     "obs" ∉ (fst (trace_of h (_model marriage age divorce))).*1).
Proof.
  unfold _model, sample, arith, sites_for.
  destruct marriage as [marriage|], age as [age|]; cbn;
    repeat match goal with
      | |- context [match ?r with inl _ => _ | inr _ => _ end] =>
          destruct r; cbn
      end;
    (split; [eexists; cbn; reflexivity |]);
    (split; [intros site obs Hin;
             repeat (apply elem_of_cons in Hin as [[= -> ->]|Hin]; [reflexivity|]);
             by apply elem_of_nil in Hin |]);
    (split; [intros u Hu; first [discriminate | reflexivity] |]);
    intros e' He; (try discriminate); injection He as <-;
    (split; [eauto |]); cbn; in_list.
Qed.

(** X11.  The model the runtime serves is the model the notebook trains.
    Training calls it with [marriage] and [divorce]: the sites it draws are
    a, bM and sigma.  A request that carries [age] makes the served model
    draw bA as well, a site training never drew. *)
Theorem age_is_not_a_trained_site h marriage divorce marriage' age divorce' u u' :
  snd (trace_of h (model (Some marriage) None (Some divorce))) = inr u →
  snd (trace_of h (_model marriage' (Some age) divorce')) = inr u' →
  (∀ m a d, model m a d = _model m a d) ∧
  latent (fst (trace_of h (model (Some marriage) None (Some divorce)))) =
    ["a"; "bM"; "sigma"] ∧
  "bA" ∈ latent (fst (trace_of h (_model marriage' (Some age) divorce'))) ∧
  "bA" ∉ latent (fst (trace_of h (model (Some marriage) None (Some divorce)))).
Proof.
  unfold model, _model, sample, arith. cbn.
  repeat match goal with
    | |- context [match ?r with inl _ => _ | inr _ => _ end] => destruct r; cbn
    end; try discriminate.
  all: intros _.
  all: destruct marriage' as [marriage'|], divorce' as [divorce'|]; cbn;
    repeat match goal with
      | |- context [match ?r with inl _ => _ | inr _ => _ end] => destruct r; cbn
      end; try discriminate.
  all: intros _; split; [reflexivity|]; unfold latent; cbn.
  all: repeat case_decide; try congruence.
  all: split; [reflexivity|]; split; in_list.
Qed.
End ModelProperties.

(** ** The further properties on the reference libraries *)

Section Runs.
Import Reference Scenarios.

Example _extract_inputs_stops_at_text :
  fst (_extract_inputs text_request loaded) =
    Raise (External "ValueError: unsupported data").
Proof. reflexivity. Qed.

Example predict_repeated_request :
  fst (predict repeated_request loaded) = Return (obs_mean_response None (211 # 20)).
Proof. reflexivity. Qed.

Lemma load_returns_witness :
  ∃ model_uri items samples,
    get_model_uri (_settings (MLModel_init model_settings)) = inr model_uri ∧
    read_json model_uri = inr (PyDict items) ∧
    Forall (λ kv, converts kv.2) items ∧
    (∀ key a, samples !! key = Some a ↔
       ∃ kv, last_with fst key items = Some kv ∧ np_array kv.2 = inr a) ∧
    dom samples = list_to_set (items.*1) ∧
    Predictive_init samples = inr tt ∧
    snd (load (MLModel_init model_settings)) =
      loaded_instance (_settings (MLModel_init model_settings)) samples.
Proof.
  apply (load_returns (MLModel_init model_settings) true). reflexivity.
Defined.

Lemma load_failure_keeps_predict_witness :
  _settings (snd (load stale_instance)) = _settings stale_instance ∧
  ready (snd (load stale_instance)) = ready stale_instance ∧
  _predictive (snd (load stale_instance)) = _predictive stale_instance ∧
  ∀ payload,
    fst (predict payload (snd (load stale_instance))) =
    fst (predict payload stale_instance).
Proof.
  apply (load_failure_keeps_predict stale_instance (AttributeError "items")).
  reflexivity.
Defined.

Lemma load_depends_on_settings_only_witness :
  fst (load (MLModel_init model_settings)) = fst (load loaded) ∧
  ∀ b, fst (load (MLModel_init model_settings)) = Return b →
       snd (load (MLModel_init model_settings)) = snd (load loaded).
Proof.
  apply (load_depends_on_settings_only (MLModel_init model_settings) loaded).
  reflexivity.
Defined.

Lemma _extract_inputs_last_input_wins_witness :
  dom ({[ "marriage" := mk_ndarray [1] [30.0%Q] ]} : gmap string (ndarray Q)) =
    list_to_set (in_name <$> req_inputs repeated_request) ∧
  ∀ key a,
    ({[ "marriage" := mk_ndarray [1] [30.0%Q] ]} : gmap string (ndarray Q)) !! key =
      Some a ↔
    ∃ inp, last_with in_name key (req_inputs repeated_request) = Some inp ∧
           np_array (in_data inp) = inr a.
Proof.
  apply (_extract_inputs_last_input_wins repeated_request loaded). reflexivity.
Defined.

Lemma predict_does_not_check_ready_witness :
  fst (predict inference_request loaded) =
  fst (predict inference_request unready_instance).
Proof.
  apply (predict_does_not_check_ready inference_request loaded unready_instance);
    reflexivity.
Defined.

Lemma predict_raises_witness :
  (∃ inp x, inp ∈ req_inputs text_request ∧
            np_array (in_data inp) = inl x ∧
            External "ValueError: unsupported data" = External x) ∨
  (External "ValueError: unsupported data" = AttributeError "_predictive" ∧
   _predictive loaded = None) ∨
  (∃ msg inp, External "ValueError: unsupported data" = TypeError msg ∧
              inp ∈ req_inputs text_request ∧
              (in_name inp = "rng_key" ∨ in_name inp = "self")) ∨
  (∃ p kwargs, _predictive loaded = Some p ∧
     fst (_extract_inputs text_request loaded) = Return kwargs ∧
     Predictive_run (PRNGKey 0) (posterior_samples p) (pred_model p kwargs) =
       inl (External "ValueError: unsupported data")) ∨
  (External "ValueError: unsupported data" = KeyError "obs" ∧
   ∃ p kwargs sites, _predictive loaded = Some p ∧
     fst (_extract_inputs text_request loaded) = Return kwargs ∧
     Predictive_run (PRNGKey 0) (posterior_samples p) (pred_model p kwargs) = inr sites ∧
     sites !! "obs" = None).
Proof.
  apply (predict_raises text_request loaded (External "ValueError: unsupported data")).
  reflexivity.
Defined.

Lemma predict_rejects_the_names_of_the_call_witness :
  ∃ msg, fst (predict rng_key_request loaded) = Raise (TypeError msg).
Proof.
  apply (predict_rejects_the_names_of_the_call rng_key_request loaded
           (<["marriage" := mk_ndarray [1] [28.0%Q]]>
              {[ "rng_key" := mk_ndarray [1] [7.0%Q] ]})
           loaded_predictive rng_key_input).
  - reflexivity.
  - reflexivity.
  - apply list_elem_of_In. simpl. auto.
  - left. reflexivity.
Defined.

Lemma age_is_not_a_trained_site_witness :
  (∀ m a d, model m a d = _model m a d) ∧
  latent (fst (trace_of draw_location
                 (model (Some (mk_ndarray [1] [28.0%Q])) None
                    (Some (mk_ndarray [1] [1.0%Q]))))) =
    ["a"; "bM"; "sigma"] ∧
  "bA" ∈ latent (fst (trace_of draw_location
                        (_model (Some (mk_ndarray [1] [28.0%Q]))
                           (Some (mk_ndarray [1] [26.0%Q])) None))) ∧
  "bA" ∉ latent (fst (trace_of draw_location
                        (model (Some (mk_ndarray [1] [28.0%Q])) None
                           (Some (mk_ndarray [1] [1.0%Q]))))).
Proof.
  apply (age_is_not_a_trained_site draw_location
           (mk_ndarray [1] [28.0%Q]) (mk_ndarray [1] [1.0%Q])
           (Some (mk_ndarray [1] [28.0%Q])) (mk_ndarray [1] [26.0%Q]) None tt tt);
    reflexivity.
Defined.

Example predict_waffles_request :
  ∃ msg, fst (predict waffles_request loaded) = Raise (TypeError msg).
Proof. eexists. reflexivity. Qed.

Lemma predict_returns_the_mean_of_obs_witness :
  ∃ p kwargs sites obs,
    _predictive loaded = Some p ∧
    fst (_extract_inputs inference_request loaded) = Return kwargs ∧
    Predictive_run (PRNGKey 0) (posterior_samples p) (pred_model p kwargs) = inr sites ∧
    sites !! "obs" = Some obs ∧
    (out_data <$> resp_outputs (obs_mean_response None (197 # 20))) =
      [PyNum (fmean (flat obs))].
Proof.
  apply (predict_returns_the_mean_of_obs inference_request loaded
           (obs_mean_response None (197 # 20))).
  reflexivity.
Defined.

Lemma predict_unknown_input_name_witness :
  ∃ samples msg,
    _samples loaded = Some samples ∧
    _model_call (<["marriage" := mk_ndarray [1] [28.0%Q]]>
                   {[ "waffles" := mk_ndarray [1] [3.0%Q] ]}) =
      Fail (TypeError msg) ∧
    fst (predict waffles_request loaded) =
      finish waffles_request loaded
        (Predictive_run (PRNGKey 0) samples (Fail (TypeError msg))).
Proof.
  apply (predict_unknown_input_name (MLModel_init model_settings) true loaded
           waffles_request
           (<["marriage" := mk_ndarray [1] [28.0%Q]]>
              {[ "waffles" := mk_ndarray [1] [3.0%Q] ]})
           waffles_input).
  - reflexivity.
  - reflexivity.
  - reflexivity.
  - intros inp' Hin'. apply list_elem_of_In in Hin'. simpl in Hin'.
    destruct Hin' as [<-|[<-|[]]]; split; discriminate.
  - apply list_elem_of_In. simpl. auto.
  - apply (bool_decide_unpack _). exact I.
Defined.
End Runs.

Section SavedFile.
#[local] Existing Instance Scenarios.saved_libs.

Lemma load_reads_back_saved_samples_witness :
  load (MLModel_init Reference.model_settings) =
    (Return true,
     loaded_instance (H := Scenarios.saved_libs)
       (_settings (MLModel_init Reference.model_settings))
       Scenarios.trained_samples).
Proof.
  apply (load_reads_back_saved_samples (H := Scenarios.saved_libs)
           (MLModel_init Reference.model_settings)
           Scenarios.trained_samples "./numpyro-divorce.json").
  - reflexivity.
  - reflexivity.
  - intros key a Hkey. unfold Scenarios.trained_samples in Hkey.
    repeat (apply lookup_insert_Some in Hkey as [[_ <-]|[_ Hkey]]; [reflexivity|]).
    by rewrite lookup_empty in Hkey.
  - reflexivity.
Defined.
End SavedFile.

(** ** Requests without marriage and age, and requests without an id *)

Section RequestProperties.
Context `{Libraries}.

(** C3, as amended.  [predict] requires no input tensor, and no statement of
    it raises an [InvalidInputError]: one could only come out of the
    library's run of the model.  On a loaded instance, a request with no
    input named marriage and none named age is handled as any other.  If
    [np.array] refuses the data of an input, [predict] raises what it
    raised.  Otherwise, if an input is named rng_key or self, [predict]
    raises a [TypeError] at the call of [Predictive]; if not, the model is
    run with the posterior samples and the key [PRNGKey 0]: when an input
    has a name other than divorce, the call of [_model] fails with a
    [TypeError] before any site, and when every input is named divorce, in
    particular when there is none, the body of [_model] runs with
    [marriage] and [age] at their default [None], so that [M] and [A] stay
    0.0. *)
Theorem predict_without_marriage_and_age self0 b self payload :
  fst (load self0) = Return b → snd (load self0) = self →
  (∀ inp, inp ∈ req_inputs payload →
     in_name inp ≠ "marriage" ∧ in_name inp ≠ "age") →
  (∃ samples, _samples self = Some samples ∧
     (∀ e, fst (_extract_inputs payload self) = Raise e →
        fst (predict payload self) = Raise e ∧
        ∃ inp x, inp ∈ req_inputs payload ∧
                 np_array (in_data inp) = inl x ∧ e = External x) ∧
     (∀ kwargs, fst (_extract_inputs payload self) = Return kwargs →
        kwargs !! "marriage" = None ∧ kwargs !! "age" = None ∧
        ((∃ inp, inp ∈ req_inputs payload ∧
                 (in_name inp = "rng_key" ∨ in_name inp = "self")) →
           ∃ msg, fst (predict payload self) = Raise (TypeError msg)) ∧
        ((∀ inp, inp ∈ req_inputs payload →
            in_name inp ≠ "rng_key" ∧ in_name inp ≠ "self") →
         (∃ inp, inp ∈ req_inputs payload ∧ in_name inp ≠ "divorce") →
           ∃ msg,
             _model_call kwargs = Fail (TypeError msg) ∧
             fst (predict payload self) =
               finish payload self
                 (Predictive_run (PRNGKey 0) samples (Fail (TypeError msg)))) ∧
        ((∀ inp, inp ∈ req_inputs payload → in_name inp = "divorce") →
           _model_call kwargs = _model None None (kwargs !! "divorce") ∧
           fst (predict payload self) =
             finish payload self
               (Predictive_run (PRNGKey 0) samples
                  (_model None None (kwargs !! "divorce")))))) ∧
  (∀ payload' self' tensor,
     fst (predict payload' self') = Raise (InvalidInputError tensor) →
     ∃ p kwargs,
       Predictive_run (PRNGKey 0) (posterior_samples p) (pred_model p kwargs) =
         inl (InvalidInputError tensor)).
Proof.
  intros Hload Hself Hnames.
  split; [|intros payload' self' tensor; apply predict_InvalidInputError].
  destruct (load_Return _ _ _ Hload Hself) as (_ & _ & _ & samples & Hsam & Hpred).
  exists samples. split; [done|]. split.
  - intros e He. split; [by rewrite predict_eq, He|].
    rewrite _extract_inputs_fill in He.
    pose proof (fill_Some in_name (λ inp, np_array (in_data inp))
                  (req_inputs payload) ∅) as Hsome.
    destruct (fill _ _ _ _) as [[x|] m]; simpl in *; [|discriminate].
    injection He as <-.
    destruct (proj1 (Hsome x) eq_refl) as (pre & inp & suf & Heq & _ & Hx).
    exists inp, x. repeat split; try done. rewrite Heq.
    apply elem_of_app. right. left.
  - intros kwargs Hin.
    assert (Hfill : fill in_name (λ inp, np_array (in_data inp))
                      (req_inputs payload) ∅ = (None, kwargs))
      by by apply _extract_inputs_Return in Hin.
    pose proof (fill_dom _ _ _ _ Hfill) as Hdom.
    assert (Hkey : ∀ key, key ∈ dom kwargs ↔
                          ∃ inp, inp ∈ req_inputs payload ∧ in_name inp = key).
    { intros key. rewrite Hdom, elem_of_list_to_set, list_elem_of_fmap.
      split; intros (inp & ? & ?); eauto. }
    assert (Hnone : ∀ key, (∀ inp, inp ∈ req_inputs payload → in_name inp ≠ key) →
                           kwargs !! key = None).
    { intros key Hne. apply not_elem_of_dom. rewrite Hkey.
      intros (inp & Hinp & Hk). by apply (Hne inp). }
    assert (Hm : kwargs !! "marriage" = None) by (apply Hnone; intros; by apply Hnames).
    assert (Ha : kwargs !! "age" = None) by (apply Hnone; intros; by apply Hnames).
    split; [done|]. split; [done|]. split; [|split].
    + intros (inp & Hinp & Hname). rewrite predict_eq, Hin, Hpred.
      unfold Predictive_call.
      destruct (decide ("rng_key" ∈ dom kwargs)) as [Hk|Hk]; [simpl; eauto|].
      destruct (decide ("self" ∈ dom kwargs)) as [Hs|Hs]; [simpl; eauto|].
      exfalso. destruct Hname as [Hn|Hn]; [apply Hk | apply Hs];
        apply Hkey; eauto.
    + intros Hcall (inp & Hinp & Hname).
      exists "_model() got an unexpected keyword argument".
      assert (Hfail : _model_call kwargs =
                Fail (TypeError "_model() got an unexpected keyword argument")).
      { unfold _model_call. rewrite decide_False; [done|].
        intros Hsub. assert (Hp : in_name inp ∈ model_params).
        { apply Hsub, Hkey. eauto. }
        unfold model_params in Hp. destruct (Hnames inp Hinp) as [? ?].
        rewrite !elem_of_union, !elem_of_singleton in Hp.
        destruct Hp as [[Hp|Hp]|Hp]; congruence. }
      split; [done|].
      rewrite predict_eq, Hin, Hpred. rewrite Predictive_call_eq.
      * simpl. rewrite Hfail.
        destruct (Predictive_run _ _ _) as [?|sites]; simpl; [done|].
        by destruct (sites !! "obs").
      * rewrite Hkey. intros (inp' & Hinp' & Hk). by destruct (Hcall inp' Hinp').
      * rewrite Hkey. intros (inp' & Hinp' & Hk). by destruct (Hcall inp' Hinp').
    + intros Hdiv.
      assert (Hcall : _model_call kwargs = _model None None (kwargs !! "divorce")).
      { unfold _model_call. rewrite decide_True; [by rewrite Hm, Ha|].
        intros key Hk. apply Hkey in Hk as (inp & Hinp & <-).
        rewrite (Hdiv inp Hinp). unfold model_params.
        rewrite !elem_of_union, !elem_of_singleton. auto. }
      split; [done|].
      rewrite predict_eq, Hin, Hpred. rewrite Predictive_call_eq.
      * simpl. rewrite Hcall.
        destruct (Predictive_run _ _ _) as [?|sites]; simpl; [done|].
        by destruct (sites !! "obs").
      * rewrite Hkey. intros (inp' & Hinp' & Hk). by rewrite (Hdiv inp' Hinp') in Hk.
      * rewrite Hkey. intros (inp' & Hinp' & Hk). by rewrite (Hdiv inp' Hinp') in Hk.
Qed.

(** C6.  A request submitted without an id comes back with one: the handler
    generates an id for it before it invokes [predict], and [predict]
    copies the id of the request it is given into its response, so that the
    response the handler returns to the client carries the generated id. *)
Theorem handle_generates_an_id generated request self r :
  req_id request = None →
  handle generated request self = Response r →
  resp_id r = Some generated.
Proof.
  intros Hid. unfold handle. destruct (ready self); [|discriminate].
  destruct (fst (predict (with_generated_id generated request) self)) as [r'|e]
    eqn:Hp; [|discriminate].
  intros [= <-]. apply predict_Return in Hp as (obs & ->).
  simpl. by rewrite Hid.
Qed.
End RequestProperties.

Section RequestRuns.
Import Reference Scenarios.

Lemma predict_without_marriage_and_age_witness :
  (∃ samples, _samples loaded = Some samples ∧
     (∀ e, fst (_extract_inputs empty_request loaded) = Raise e →
        fst (predict empty_request loaded) = Raise e ∧
        ∃ inp x, inp ∈ req_inputs empty_request ∧
                 np_array (in_data inp) = inl x ∧ e = External x) ∧
     (∀ kwargs, fst (_extract_inputs empty_request loaded) = Return kwargs →
        kwargs !! "marriage" = None ∧ kwargs !! "age" = None ∧
        ((∃ inp, inp ∈ req_inputs empty_request ∧
                 (in_name inp = "rng_key" ∨ in_name inp = "self")) →
           ∃ msg, fst (predict empty_request loaded) = Raise (TypeError msg)) ∧
        ((∀ inp, inp ∈ req_inputs empty_request →
            in_name inp ≠ "rng_key" ∧ in_name inp ≠ "self") →
         (∃ inp, inp ∈ req_inputs empty_request ∧ in_name inp ≠ "divorce") →
           ∃ msg,
             _model_call kwargs = Fail (TypeError msg) ∧
             fst (predict empty_request loaded) =
               finish empty_request loaded
                 (Predictive_run (PRNGKey 0) samples (Fail (TypeError msg)))) ∧
        ((∀ inp, inp ∈ req_inputs empty_request → in_name inp = "divorce") →
           _model_call kwargs = _model None None (kwargs !! "divorce") ∧
           fst (predict empty_request loaded) =
             finish empty_request loaded
               (Predictive_run (PRNGKey 0) samples
                  (_model None None (kwargs !! "divorce")))))) ∧
  (∀ payload' self' tensor,
     fst (predict payload' self') = Raise (InvalidInputError tensor) →
     ∃ p kwargs,
       Predictive_run (PRNGKey 0) (posterior_samples p) (pred_model p kwargs) =
         inl (InvalidInputError tensor)).
Proof.
  apply (predict_without_marriage_and_age (MLModel_init model_settings) true loaded
           empty_request).
  - reflexivity.
  - reflexivity.
  - simpl. intros inp Hin. by apply elem_of_nil in Hin.
Defined.

(** A request with neither marriage nor age, but with an input that
    [_model] has no parameter for: a [TypeError], no [InvalidInputError]. *)
Example predict_waffles_only_request :
  fst (predict waffles_only_request loaded) =
    Raise (TypeError "_model() got an unexpected keyword argument").
Proof. reflexivity. Qed.

Example handle_unready_instance :
  handle "generated-id" inference_request unready_instance = Unavailable.
Proof. reflexivity. Qed.

Lemma handle_generates_an_id_witness :
  resp_id (obs_mean_response (Some "generated-id") (197 # 20)) = Some "generated-id".
Proof.
  apply (handle_generates_an_id "generated-id" inference_request loaded
           (obs_mean_response (Some "generated-id") (197 # 20))).
  - reflexivity.
  - reflexivity.
Defined.
End RequestRuns.
